(** * Front end of the code documentation generator (React app, docapp/src)

    Shallow embedding of [services/api.js], the handlers of [App.jsx] and the
    form handlers of [components/GitHubInput.jsx] and [components/CodeInput.jsx].

    Conventions of the model:
    - JavaScript strings are [string]s of ASCII characters; whitespace and line
      terminators are their ASCII members.
    - The backend is a function from request to response ([server]); a
      handler returns the list of requests it issued, so "no network call"
      is "the list is empty".
    - React state updates of a handler are applied in program order to an
      explicit state record. Scrolling and console output are not modelled. *)

From Stdlib Require Import ZArith String Ascii List Bool Lia.
From Stdlib Require Import Numbers.DecimalString.
Import ListNotations.
Open Scope Z_scope.
Open Scope string_scope.
#[local] Set Warnings "-register-all".

(** ** String helpers *)

Fixpoint str_filter (f : ascii -> bool) (s : string) : string :=
  match s with
  | EmptyString => EmptyString
  | String c s' => if f c then String c (str_filter f s') else str_filter f s'
  end.

Fixpoint str_forallb (f : ascii -> bool) (s : string) : bool :=
  match s with
  | EmptyString => true
  | String c s' => f c && str_forallb f s'
  end.

Fixpoint strip_prefix (p s : string) : option string :=
  match p, s with
  | EmptyString, _ => Some s
  | String c p', String d s' => if Ascii.eqb c d then strip_prefix p' s' else None
  | String _ _, EmptyString => None
  end.

Definition is_nonempty (s : string) : bool :=
  match s with EmptyString => false | _ => true end.

(** Whitespace of [String.prototype.trim] (ASCII part: TAB LF VT FF CR SP). *)
Definition is_ws (c : ascii) : bool :=
  let n := nat_of_ascii c in
  ((9 <=? n) && (n <=? 13))%nat || (n =? 32)%nat.

Fixpoint ltrim (s : string) : string :=
  match s with
  | String c s' => if is_ws c then ltrim s' else s
  | EmptyString => EmptyString
  end.

Fixpoint rtrim (s : string) : string :=
  match s with
  | EmptyString => EmptyString
  | String c s' =>
      let r := rtrim s' in
      if negb (is_nonempty r) && is_ws c then EmptyString else String c r
  end.

(** [String.prototype.trim]. *)
Definition trim (s : string) : string := rtrim (ltrim s).

(** Decimal rendering of integers, as [String(n)] / template literals. *)
Definition Z_to_string (z : Z) : string := NilEmpty.string_of_int (Z.to_int z).

Definition digit_char (d : Z) : ascii := ascii_of_nat (48 + Z.to_nat d).

(** The last [k] decimal digits of [n], zero padded to width [k]. *)
Fixpoint digits (k : nat) (n : Z) : string :=
  match k with
  | O => EmptyString
  | S k' => digits k' (n / 10) ++ String (digit_char (n mod 10)) EmptyString
  end.

Definition is_digit (c : ascii) : bool :=
  let n := nat_of_ascii c in ((48 <=? n) && (n <=? 57))%nat.

(** ** JavaScript numbers *)

(** A finite number [x <> 0] is written by [Number::toString] from the
    shortest decimal [s * 10^(n-k)] (with [k] digits) that rounds to [x].
    A number is represented here by such a decimal: [JNum m e] stands for
    the double whose shortest decimal is [m * 10^e], so every finite number
    has a representation and [String(x)] needs no rounding. *)

(** [m] and [e] with the trailing zeros of [m] moved into [e]. *)
Fixpoint strip_zeros (fuel : nat) (m e : Z) : Z * Z :=
  match fuel with
  | O => (m, e)
  | S f => if ((m mod 10 =? 0) && (0 <? m))%Z then strip_zeros f (m / 10) (e + 1) else (m, e)
  end.

Fixpoint zeros (n : nat) : string :=
  match n with O => EmptyString | S n' => String "0"%char (zeros n') end.

(** [Number::toString(x)] (radix 10) for [x = m * 10^e]. *)
Definition num_to_string (m e : Z) : string :=
  if (m =? 0)%Z then "0" else
  let sign := if (m <? 0)%Z then "-" else "" in
  let '(s, e') := strip_zeros (String.length (Z_to_string (Z.abs m))) (Z.abs m) e in
  let ds := Z_to_string s in
  let k := Z.of_nat (String.length ds) in
  let n := (e' + k)%Z in
  let exp := let x := (n - 1)%Z in
             "e" ++ (if (0 <? x)%Z then "+" else "-") ++ Z_to_string (Z.abs x) in
  sign ++
  (if ((k <=? n) && (n <=? 21))%Z then ds ++ zeros (Z.to_nat (n - k))
   else if ((0 <? n) && (n <=? 21))%Z then
     substring 0 (Z.to_nat n) ds ++ "." ++ substring (Z.to_nat n) (Z.to_nat (k - n)) ds
   else if ((-6 <? n) && (n <=? 0))%Z then "0." ++ zeros (Z.to_nat (- n)) ++ ds
   else if (k =? 1)%Z then ds ++ exp
   else substring 0 1 ds ++ "." ++ substring 1 (Z.to_nat (k - 1)) ds ++ exp).

(** ** JavaScript values *)

Inductive jsval : Type :=
| JUndef
| JNull
| JBool (b : bool)
| JNum (m e : Z)              (* the number m * 10^e, see [num_to_string] *)
| JStr (s : string)
| JArr (l : list jsval)
| JObj (kvs : list (string * jsval)).

(** Truthiness ([x || y], [!x], [if (x)]). *)
Definition truthy (v : jsval) : bool :=
  match v with
  | JUndef | JNull => false
  | JBool b => b
  | JNum m _ => negb (Z.eqb m 0)
  | JStr s => is_nonempty s
  | JArr _ | JObj _ => true
  end.

(** [String(v)]; arrays are joined with commas, [null] and [undefined]
    elements rendering as the empty string. *)
Fixpoint js_string (v : jsval) : string :=
  match v with
  | JUndef => "undefined"
  | JNull => "null"
  | JBool true => "true"
  | JBool false => "false"
  | JNum m e => num_to_string m e
  | JStr s => s
  | JArr l =>
      let fix go (l : list jsval) : string :=
        match l with
        | nil => EmptyString
        | x :: t =>
            (match x with JUndef | JNull => EmptyString | _ => js_string x end)
            ++ (match t with nil => EmptyString | _ => "," ++ go t end)
        end in
      go l
  | JObj _ => "[object Object]"
  end.

(** Property lookup in a parsed JSON object: the last binding wins. *)
Fixpoint lookup_last (kvs : list (string * jsval)) (k : string) : option jsval :=
  match kvs with
  | nil => None
  | (k', v) :: t =>
      match lookup_last t k with
      | Some x => Some x
      | None => if String.eqb k k' then Some v else None
      end
  end.

(** [v?.key] *)
Definition opt_get (v : jsval) (k : string) : jsval :=
  match v with
  | JObj kvs => match lookup_last kvs k with Some x => x | None => JUndef end
  | _ => JUndef
  end.

(** [v.key]: [None] is the TypeError thrown on [null] and [undefined]. *)
Definition get (v : jsval) (k : string) : option jsval :=
  match v with
  | JUndef | JNull => None
  | _ => Some (opt_get v k)
  end.

Definition read_prop_error (k : string) : string :=
  "Cannot read properties of null (reading '" ++ k ++ "')".

(** [a || b] on strings. *)
Definition str_or (a b : string) : string := if is_nonempty a then a else b.

(** ** Requests and responses *)

Record request := mkRequest {
  req_method : string;
  req_path : string;
  req_body : jsval
}.

Record response := mkResponse {
  status : Z;
  statusText : string;
  body_json : option jsval;          (* [None]: the body is not JSON *)
  body_text : string;
  content_disposition : option string
}.

Definition resp_ok (r : response) : bool := ((200 <=? status r) && (status r <=? 299))%Z.

Definition server := request -> response.

Inductive outcome (A : Type) : Type :=
| Resolved (a : A)
| Rejected (msg : string).
Arguments Resolved {A} a.
Arguments Rejected {A} msg.

(** Message of the SyntaxError of [response.json()] on a body that is not
    JSON (engine dependent text). *)
Definition json_parse_error : string := "Unexpected token in JSON".

(** [response.json()] *)
Definition response_json (r : response) : outcome jsval :=
  match body_json r with
  | Some v => Resolved v
  | None => Rejected json_parse_error
  end.

(** The error thrown on a non-OK response:
    [const errorData = await response.json().catch(() => null);
     throw new Error(errorData?.detail || `Server error: ${response.status} ${response.statusText}`)] *)
Definition error_message_of (r : response) : string :=
  let errorData := match body_json r with Some v => v | None => JNull end in
  let d := opt_get errorData "detail" in
  if truthy d then js_string d
  else "Server error: " ++ Z_to_string (status r) ++ " " ++ statusText r.


Definition server_error_text (r : response) : string :=
  "Server error: " ++ Z_to_string (status r) ++ " " ++ statusText r.

(** ** Regular expressions used by the front end *)

Definition is_slash (c : ascii) : bool := Ascii.eqb c "/"%char.

(** Greedy [[^/]+]-style split: the longest prefix without a slash, and the rest. *)
Fixpoint span_nonslash (s : string) : string * string :=
  match s with
  | EmptyString => (EmptyString, EmptyString)
  | String c s' =>
      if is_slash c then (EmptyString, s)
      else let '(a, b) := span_nonslash s' in (String c a, b)
  end.

(** [/github\.com\/([^/]+)\/([^/]+)/] tried at the start of [s]. *)
Definition gh_match_at (s : string) : option (string * string) :=
  match strip_prefix "github.com/" s with
  | None => None
  | Some r =>
      let '(owner, r1) := span_nonslash r in
      match owner, r1 with
      | String _ _, String c r2 =>
          if is_slash c then
            let '(repo, _) := span_nonslash r2 in
            if is_nonempty repo then Some (owner, repo) else None
          else None
      | _, _ => None
      end
  end.

(** [s.match(/github\.com\/([^/]+)\/([^/]+)/)]: leftmost match, its two groups. *)
Fixpoint gh_match (s : string) : option (string * string) :=
  match gh_match_at s with
  | Some m => Some m
  | None => match s with EmptyString => None | String _ s' => gh_match s' end
  end.

(** No match of the GitHub pattern starts inside [pre], in [pre ++ rest]. *)
Fixpoint gh_no_match_before (pre rest : string) : bool :=
  match pre with
  | EmptyString => true
  | String c pre' =>
      match gh_match_at (String c (pre' ++ rest)) with
      | Some _ => false
      | None => gh_no_match_before pre' rest
      end
  end.

(** [const repoMatch = url.match(...);
     const repoName = repoMatch ? `${repoMatch[1]}_${repoMatch[2]}` : 'github_repo';
     `github_docs_${repoName}`] (App.handleDownload, api.downloadGitHubDocumentation) *)
Definition github_prefix (url : string) : string :=
  let repoName := match gh_match url with
                  | Some (o, r) => o ++ "_" ++ r
                  | None => "github_repo"
                  end in
  "github_docs_" ++ repoName.

(** Line terminators, which [.] does not match (ASCII part: LF, CR). *)
Definition is_line_term (c : ascii) : bool :=
  Ascii.eqb c (ascii_of_nat 10) || Ascii.eqb c (ascii_of_nat 13).

Fixpoint take_line (s : string) : string :=
  match s with
  | EmptyString => EmptyString
  | String c s' => if is_line_term c then EmptyString else String c (take_line s')
  end.

Definition dquote : ascii := ascii_of_nat 34.

(** Index of the last double quote of [s]. *)
Fixpoint last_quote (s : string) : option nat :=
  match s with
  | EmptyString => None
  | String c s' =>
      match last_quote s' with
      | Some k => Some (S k)
      | None => if Ascii.eqb c dquote then Some O else None
      end
  end.

Definition filename_eq_quote : string := "filename=" ++ String dquote EmptyString.

(** [/filename="(.+)"/] tried at the start of [s]: [.+] is greedy and stays on
    the current line, so the group ends at the last quote of the line (at
    index at least 1). *)
Definition cd_match_at (s : string) : option string :=
  match strip_prefix filename_eq_quote s with
  | None => None
  | Some rest =>
      let line := take_line rest in
      match last_quote line with
      | Some (S k) => Some (substring 0 (S k) line)
      | _ => None
      end
  end.

(** [contentDisposition.match(/filename="(.+)"/)], group 1. *)
Fixpoint cd_match (s : string) : option string :=
  match cd_match_at s with
  | Some m => Some m
  | None => match s with EmptyString => None | String _ s' => cd_match s' end
  end.


(** [name.replace(/\.[^/.]+$/, '')]: the leftmost dot followed by a non-empty
    run of characters other than [/] and [.] up to the end is removed with it. *)
Definition ext_tail (s : string) : bool :=
  is_nonempty s
  && str_forallb (fun c => negb (is_slash c) && negb (Ascii.eqb c "."%char)) s.

Fixpoint strip_ext (s : string) : string :=
  match s with
  | EmptyString => EmptyString
  | String c s' =>
      if Ascii.eqb c "."%char && ext_tail s' then EmptyString
      else String c (strip_ext s')
  end.

(** ** Dates: [new Date().toISOString()] *)

(** A time value as its UTC calendar fields (month 1..12). *)
Record date := mkDate {
  year : Z; month : Z; day : Z;
  hours : Z; minutes : Z; seconds : Z; millis : Z
}.

(** [Date.prototype.toISOString]: [YYYY-MM-DDTHH:mm:ss.sssZ], with the
    six-digit signed year outside 0..9999. *)
Definition toISOString (d : date) : string :=
  (if ((0 <=? year d) && (year d <=? 9999))%Z then digits 4 (year d)
   else (if (year d <? 0)%Z then "-" else "+") ++ digits 6 (Z.abs (year d)))
  ++ "-" ++ digits 2 (month d) ++ "-" ++ digits 2 (day d)
  ++ "T" ++ digits 2 (hours d) ++ ":" ++ digits 2 (minutes d)
  ++ ":" ++ digits 2 (seconds d) ++ "." ++ digits 3 (millis d) ++ "Z".

(** [/[-:.]/g] *)
Definition dash_colon_dot (c : ascii) : bool :=
  Ascii.eqb c "-"%char || Ascii.eqb c ":"%char || Ascii.eqb c "."%char.

(** [new Date().toISOString().replace(/[-:.]/g, '').substring(0, 14)] *)
Definition timestamp (now : date) : string :=
  substring 0 14 (str_filter (fun c => negb (dash_colon_dot c)) (toISOString now)).

(** [`${filenamePrefix}_${timestamp}.md`] *)
Definition default_filename (filenamePrefix : string) (now : date) : string :=
  filenamePrefix ++ "_" ++ timestamp now ++ ".md".

(** ** services/api.js *)

(** [generateDocumentation(code)]: one POST to [/docs/gen]. *)
Definition generateDocumentation (srv : server) (code : string)
  : list request * outcome jsval :=
  let req := mkRequest "POST" "/docs/gen"
               (JObj [("code", JStr code); ("isBase64", JBool false)]) in
  let response := srv req in
  ([req],
   if negb (resp_ok response) then Rejected (error_message_of response)
   else response_json response).

(** [generateGitHubDocumentation(githubUrl, maxFiles)]: one POST to
    [/docs/from-github]. *)
Definition generateGitHubDocumentation (srv : server) (githubUrl : string) (maxFiles : Z)
  : list request * outcome jsval :=
  let req := mkRequest "POST" "/docs/from-github"
               (JObj [("github_url", JStr githubUrl); ("max_files", JNum maxFiles 0)]) in
  let response := srv req in
  ([req],
   if negb (resp_ok response) then Rejected (error_message_of response)
   else response_json response).

(** A file saved by the browser through the temporary anchor: its
    [download] name and the blob's contents. *)
Record saved_file := mkSaved { saved_name : string; saved_body : string }.

(** [downloadDocumentationUniversal(markdownContent, filenamePrefix, sourceType)] *)
Definition downloadDocumentationUniversal (srv : server) (now : date)
  (markdownContent filenamePrefix sourceType : string)
  : list request * outcome bool * option saved_file :=
  let req := mkRequest "POST" "/docs/download"
               (JObj [("markdown_content", JStr markdownContent);
                      ("filename_prefix", JStr filenamePrefix);
                      ("source_type", JStr sourceType)]) in
  let response := srv req in
  if negb (resp_ok response) then ([req], Rejected (error_message_of response), None)
  else
    let blob := body_text response in
    let contentDisposition := content_disposition response in
    let filename :=
      match contentDisposition with
      | Some cd =>
          if is_nonempty cd then
            match cd_match cd with
            | Some m => m
            | None => default_filename filenamePrefix now
            end
          else default_filename filenamePrefix now
      | None => default_filename filenamePrefix now
      end in
    ([req], Resolved true, Some (mkSaved filename blob)).

(** ** App.jsx *)

(** [currentCode]: [null], the pasted code, or an uploaded [File] (its name). *)
Inductive current_code : Type :=
| CodeNull
| CodeText (code : string)
| CodeFile (name : string).

Record app_state := mkApp {
  documentation : jsval;
  activeTab : string;
  error : string;
  currentCode : current_code;
  currentGitHubData : option (string * Z)   (* {githubUrl, maxFiles} *)
}.

Definition app_init : app_state := mkApp (JStr "") "code" "" CodeNull None.

Definition setDocumentation (v : jsval) (st : app_state) : app_state :=
  mkApp v (activeTab st) (error st) (currentCode st) (currentGitHubData st).
Definition setActiveTab (t : string) (st : app_state) : app_state :=
  mkApp (documentation st) t (error st) (currentCode st) (currentGitHubData st).
Definition setError (e : string) (st : app_state) : app_state :=
  mkApp (documentation st) (activeTab st) e (currentCode st) (currentGitHubData st).
Definition setCurrentCode (c : current_code) (st : app_state) : app_state :=
  mkApp (documentation st) (activeTab st) (error st) c (currentGitHubData st).
Definition setCurrentGitHubData (g : option (string * Z)) (st : app_state) : app_state :=
  mkApp (documentation st) (activeTab st) (error st) (currentCode st) g.

(** [handleCodeSubmit(code)]: requests issued, final state, and how the
    returned promise settles. *)
Definition handleCodeSubmit (srv : server) (code : string) (st : app_state)
  : list request * app_state * outcome jsval :=
  let st1 := setError "" st in
  let '(reqs, res) := generateDocumentation srv code in
  let fail msg :=
    (reqs, setError (str_or msg "Failed to generate documentation. Please try again.") st1,
     Rejected msg) in
  match res with
  | Rejected msg => fail msg
  | Resolved response =>
      match get response "markdown" with
      | None => fail (read_prop_error "markdown")
      | Some md =>
          (reqs, setCurrentCode (CodeText code) (setDocumentation md st1), Resolved response)
      end
  end.

(** [handleGitHubSubmit(githubUrl, maxFiles)] *)
Definition handleGitHubSubmit (srv : server) (githubUrl : string) (maxFiles : Z)
  (st : app_state) : list request * app_state * outcome jsval :=
  let st1 := setError "" st in
  let '(reqs, res) := generateGitHubDocumentation srv githubUrl maxFiles in
  let fail msg :=
    (reqs, setError (str_or msg "Failed to generate GitHub documentation. Please try again.") st1,
     Rejected msg) in
  match res with
  | Rejected msg => fail msg
  | Resolved response =>
      match get response "markdown" with
      | None => fail (read_prop_error "markdown")
      | Some md =>
          (reqs,
           setCurrentCode CodeNull
             (setCurrentGitHubData (Some (githubUrl, maxFiles)) (setDocumentation md st1)),
           Resolved response)
      end
  end.

Definition no_doc_message : string :=
  "No documentation to download. Please generate documentation first.".

(** [handleDownload()] *)
Definition handleDownload (srv : server) (now : date) (st : app_state)
  : list request * app_state * outcome bool * option saved_file :=
  let st1 := setError "" st in
  let fail msg :=
    ([], setError (str_or msg "Failed to download documentation. Please try again.") st1,
     Rejected msg, None) in
  let doc := documentation st in
  if negb (truthy doc) then fail no_doc_message
  else
    match doc with
    | JStr d =>
        if negb (is_nonempty (trim d)) then fail no_doc_message
        else
          let '(sourceType, filenamePrefix) :=
            match currentGitHubData st with
            | Some (githubUrl, _) => ("github", github_prefix githubUrl)
            | None =>
                match currentCode st with
                | CodeFile name => ("file", "file_docs_" ++ strip_ext name)
                | CodeText c => if is_nonempty c then ("code", "code_documentation")
                                else ("code", "documentation")
                | CodeNull => ("code", "documentation")
                end
            end in
          let '(reqs, res, saved) :=
            downloadDocumentationUniversal srv now d filenamePrefix sourceType in
          match res with
          | Resolved _ => (reqs, st1, Resolved true, saved)
          | Rejected msg =>
              (reqs, setError (str_or msg "Failed to download documentation. Please try again.") st1,
               Rejected msg, saved)
          end
    | _ => fail "documentation.trim is not a function"
    end.

(** [handleTabChange(tab)] *)
Definition handleTabChange (tab : string) (st : app_state) : app_state :=
  setActiveTab tab
    (setCurrentGitHubData None
       (setCurrentCode CodeNull
          (setDocumentation (JStr "")
             (setError "" st)))).


(** ** components/GitHubInput.jsx *)

(** [parseInt(s)] with no radix: leading whitespace, an optional sign, an
    optional [0x]/[0X] prefix (radix 16), then the longest run of digits of
    the radix; [None] is [NaN] (no digit). *)
Definition digit_value (radix : Z) (c : ascii) : option Z :=
  let n := Z.of_nat (nat_of_ascii c) in
  let v := if ((48 <=? n) && (n <=? 57))%Z then Some (n - 48)
           else if ((97 <=? n) && (n <=? 122))%Z then Some (n - 87)
           else if ((65 <=? n) && (n <=? 90))%Z then Some (n - 55)
           else None in
  match v with
  | Some d => if (d <? radix)%Z then Some d else None
  | None => None
  end.

Fixpoint parse_digits (radix acc : Z) (seen : bool) (s : string) : option Z :=
  match s with
  | String c s' =>
      match digit_value radix c with
      | Some d => parse_digits radix (acc * radix + d) true s'
      | None => if seen then Some acc else None
      end
  | EmptyString => if seen then Some acc else None
  end.

Definition parseInt (s : string) : option Z :=
  let s1 := ltrim s in
  let '(sign, s2) :=
    match s1 with
    | String c s' =>
        if Ascii.eqb c "-"%char then ((-1)%Z, s')
        else if Ascii.eqb c "+"%char then (1%Z, s') else (1%Z, s1)
    | EmptyString => (1%Z, s1)
    end in
  let '(radix, s3) :=
    match strip_prefix "0x" s2, strip_prefix "0X" s2 with
    | Some r, _ => (16%Z, r)
    | None, Some r => (16%Z, r)
    | None, None => (10%Z, s2)
    end in
  match parse_digits radix 0 false s3 with
  | Some v => Some (sign * v)%Z
  | None => None
  end.

Record gh_state := mkGh {
  githubUrl : string;
  maxFiles : Z;
  isLoading : bool;
  loadingStep : string
}.

Definition gh_init : gh_state := mkGh "" 10 false "".

(** [handleUrlChange]: [setGithubUrl(e.target.value)]. *)
Definition handleUrlChange (value : string) (st : gh_state) : gh_state :=
  mkGh value (maxFiles st) (isLoading st) (loadingStep st).

(** [handleMaxFilesChange]:
    [const value = parseInt(e.target.value); if (value >= 1 && value <= 50) setMaxFiles(value);]
    ([NaN] fails both comparisons). *)
Definition handleMaxFilesChange (value : string) (st : gh_state) : gh_state :=
  match parseInt value with
  | Some v =>
      if ((1 <=? v) && (v <=? 50))%Z
      then mkGh (githubUrl st) v (isLoading st) (loadingStep st)
      else st
  | None => st
  end.

(** Change events of the two inputs. *)
Inductive gh_event : Type :=
| UrlChange (value : string)
| MaxFilesChange (value : string).

Definition gh_step (st : gh_state) (e : gh_event) : gh_state :=
  match e with
  | UrlChange v => handleUrlChange v st
  | MaxFilesChange v => handleMaxFilesChange v st
  end.

Definition gh_run (evs : list gh_event) : gh_state := fold_left gh_step evs gh_init.

(** Observable effects of [handleSubmit], in order. *)
Inductive gh_effect : Type :=
| Alert (msg : string)
| SetIsLoading (b : bool)
| SetLoadingStep (s : string)
| Sleep (ms : Z)
| CallOnSubmit (url : string) (n : Z).

(** [handleSubmit] of GitHubInput with [onSubmit = App.handleGitHubSubmit]:
    its effects, the final GitHubInput state, the requests issued and the
    final App state. *)
Definition gh_handleSubmit (srv : server) (st : gh_state) (ast : app_state)
  : list gh_effect * gh_state * list request * app_state :=
  let url := githubUrl st in
  if negb (is_nonempty (trim url)) then
    ([Alert "Please enter a GitHub repository URL"], st, [], ast)
  else
    match gh_match url with
    | None => ([Alert "Please enter a valid GitHub repository URL"], st, [], ast)
    | Some _ =>
        let u := trim url in
        let n := maxFiles st in
        let '(reqs, ast', res) := handleGitHubSubmit srv u n ast in
        let post :=
          match res with
          | Resolved _ => [SetLoadingStep "✅ Documentation generated successfully!"; Sleep 1000]
          | Rejected _ => [SetLoadingStep "❌ Failed to generate documentation"]
          end in
        (app [SetIsLoading true;
              SetLoadingStep "Exploring repository structure..."; Sleep 2000;
              SetLoadingStep "Analyzing files..."; Sleep 2500;
              SetLoadingStep "Generating comprehensive documentation...";
              CallOnSubmit u n]
             (app post [SetIsLoading false; SetLoadingStep ""]),
         mkGh url n false "", reqs, ast')
    end.

(** ** components/CodeInput.jsx *)

Record ci_state := mkCi { code : string; isProcessing : bool }.

Definition ci_init : ci_state := mkCi "" false.

(** [disabled={isProcessing || !code.trim()}] *)
Definition ci_disabled (st : ci_state) : bool :=
  isProcessing st || negb (is_nonempty (trim (code st))).

(** [handleSubmit] of CodeInput with [onSubmit = App.handleCodeSubmit]:
    [if (!code.trim()) return; setIsProcessing(true);
     onSubmit(code).finally(() => setIsProcessing(false))]. *)
Definition ci_handleSubmit (srv : server) (st : ci_state) (ast : app_state)
  : ci_state * list request * app_state :=
  if negb (is_nonempty (trim (code st))) then (st, [], ast)
  else
    let '(reqs, ast', _) := handleCodeSubmit srv (code st) ast in
    (mkCi (code st) false, reqs, ast').

(** ** Requests as sent *)

Definition gen_request (code : string) : request :=
  mkRequest "POST" "/docs/gen" (JObj [("code", JStr code); ("isBase64", JBool false)]).

Definition github_request (githubUrl : string) (maxFiles : Z) : request :=
  mkRequest "POST" "/docs/from-github"
    (JObj [("github_url", JStr githubUrl); ("max_files", JNum maxFiles 0)]).

(** ** Concrete runs *)

Definition sample_now : date := mkDate 2024 1 15 10 30 45 123.

Example sample_iso : toISOString sample_now = "2024-01-15T10:30:45.123Z".
Proof. reflexivity. Qed.

Example sample_num_to_string :
  num_to_string 1 21 = "1e+21" /\ num_to_string 12345 (-2) = "123.45"
  /\ num_to_string 1 (-6) = "0.000001" /\ num_to_string (-15) (-8) = "-1.5e-7"
  /\ num_to_string 500 0 = "500" /\ num_to_string 123 18 = "123000000000000000000".
Proof. vm_compute. repeat split. Qed.

Example sample_default_filename :
  default_filename "documentation" sample_now = "documentation_20240115T10304.md".
Proof. reflexivity. Qed.

Example sample_gh_match :
  gh_match "https://github.com/octocat/Hello-World/tree/main" = Some ("octocat", "Hello-World").
Proof. reflexivity. Qed.

Example sample_parseInt : parseInt "  0x1F" = Some 31%Z /\ parseInt "12abc" = Some 12%Z
                          /\ parseInt "abc" = None.
Proof. repeat split; reflexivity. Qed.

(** A server answering every request with the same response. *)
Definition const_server (r : response) : server := fun _ => r.

Definition ok_markdown (md : string) : response :=
  mkResponse 200 "OK" (Some (JObj [("markdown", JStr md)])) md None.

(** ** Claims *)

(** C8: switching tab clears the documentation and the error to empty
    strings, the stored code/file and GitHub data to null, and sets the
    active tab; the result does not depend on the previous state. *)
Theorem handleTabChange_resets (tab : string) (st : app_state) :
  documentation (handleTabChange tab st) = JStr ""
  /\ error (handleTabChange tab st) = ""
  /\ currentCode (handleTabChange tab st) = CodeNull
  /\ currentGitHubData (handleTabChange tab st) = None
  /\ activeTab (handleTabChange tab st) = tab
  /\ (forall st', handleTabChange tab st' = handleTabChange tab st).
Proof. repeat split. Qed.

(** C9: with an empty or whitespace-only stored documentation, the download
    handler issues no request, saves no file, rejects with the
    "No documentation to download" error, shows it in the banner, and keeps
    the documentation. *)
Theorem handleDownload_blank_doc (srv : server) (now : date) (st : app_state) (d : string)
  (Hdoc : documentation st = JStr d) (Hblank : trim d = "") :
  handleDownload srv now st = ([], setError no_doc_message st, Rejected no_doc_message, None)
  /\ documentation (setError no_doc_message st) = documentation st.
Proof.
  split; [| reflexivity].
  unfold handleDownload. rewrite Hdoc.
  destruct d as [| c d']; simpl.
  - reflexivity.
  - simpl in Hblank. rewrite Hblank. reflexivity.
Qed.

Lemma handleDownload_blank_doc_witness :
  documentation (setDocumentation (JStr "  ") app_init) = JStr "  " /\ trim "  " = ""
  /\ handleDownload (const_server (ok_markdown "x")) sample_now
       (setDocumentation (JStr "  ") app_init)
     = ([], setError no_doc_message (setDocumentation (JStr "  ") app_init),
        Rejected no_doc_message, None)
  /\ documentation (setError no_doc_message (setDocumentation (JStr "  ") app_init))
     = documentation (setDocumentation (JStr "  ") app_init).
Proof.
  split; [reflexivity |]. split; [reflexivity |].
  apply (handleDownload_blank_doc (const_server (ok_markdown "x")) sample_now
           (setDocumentation (JStr "  ") app_init) "  "); reflexivity.
Defined.

(** C10: submitting the paste-code form with blank code changes nothing and
    issues no request; the submit button is disabled in that state. *)
Theorem ci_submit_blank_noop (srv : server) (st : ci_state) (ast : app_state)
  (Hblank : trim (code st) = "") :
  ci_handleSubmit srv st ast = (st, [], ast) /\ ci_disabled st = true.
Proof.
  unfold ci_handleSubmit, ci_disabled. rewrite Hblank. simpl.
  split; [reflexivity | apply orb_true_r].
Qed.

Lemma ci_submit_blank_noop_witness :
  trim (code (mkCi " 	 " false)) = ""
  /\ ci_handleSubmit (const_server (ok_markdown "x")) (mkCi " 	 " false) app_init
     = (mkCi " 	 " false, [], app_init)
  /\ ci_disabled (mkCi " 	 " false) = true.
Proof.
  split; [reflexivity |].
  apply ci_submit_blank_noop; reflexivity.
Defined.

(** C3: a URL not matching [github.com/<owner>/<repo>] (the empty and
    blank strings included) is rejected by an alert: no call of [onSubmit],
    no request, no state change. *)
Theorem gh_submit_rejects_unmatched (srv : server) (st : gh_state) (ast : app_state)
  (Hno : gh_match (githubUrl st) = None) :
  gh_handleSubmit srv st ast =
    ([Alert (if is_nonempty (trim (githubUrl st))
             then "Please enter a valid GitHub repository URL"
             else "Please enter a GitHub repository URL")], st, [], ast).
Proof.
  unfold gh_handleSubmit.
  destruct (is_nonempty (trim (githubUrl st))); simpl; [rewrite Hno |]; reflexivity.
Qed.

Lemma gh_submit_rejects_unmatched_witness :
  gh_match (githubUrl (mkGh "not-a-url" 10 false "")) = None
  /\ gh_handleSubmit (const_server (ok_markdown "x")) (mkGh "not-a-url" 10 false "") app_init
     = ([Alert "Please enter a valid GitHub repository URL"],
        mkGh "not-a-url" 10 false "", [], app_init).
Proof.
  split; [reflexivity |].
  exact (gh_submit_rejects_unmatched (const_server (ok_markdown "x"))
           (mkGh "not-a-url" 10 false "") app_init eq_refl).
Defined.

(** Requests issued by a GitHub form submit: none, or the one POST carrying
    the trimmed URL and the current [maxFiles]. *)
Lemma gh_handleSubmit_requests (srv : server) (st : gh_state) (ast : app_state) :
  snd (fst (gh_handleSubmit srv st ast)) = []
  \/ snd (fst (gh_handleSubmit srv st ast))
     = [github_request (trim (githubUrl st)) (maxFiles st)].
Proof.
  unfold gh_handleSubmit.
  destruct (is_nonempty (trim (githubUrl st))); simpl; [| left; reflexivity].
  destruct (gh_match (githubUrl st)); simpl; [| left; reflexivity].
  right. unfold handleGitHubSubmit, generateGitHubDocumentation.
  set (R := srv _).
  destruct (resp_ok R); simpl; [destruct (response_json R) as [v | m]; simpl;
    [destruct (get v "markdown") |] |]; reflexivity.
Qed.

Lemma handleMaxFilesChange_range (v : string) (st : gh_state) :
  (1 <= maxFiles st <= 50)%Z -> (1 <= maxFiles (handleMaxFilesChange v st) <= 50)%Z.
Proof.
  intros H. unfold handleMaxFilesChange.
  destruct (parseInt v) as [n |]; [| exact H].
  destruct ((1 <=? n) && (n <=? 50))%Z eqn:E; [| exact H].
  apply andb_true_iff in E. destruct E as [E1 E2].
  apply Z.leb_le in E1. apply Z.leb_le in E2. simpl. lia.
Qed.

Lemma gh_run_range (evs : list gh_event) (st : gh_state) :
  (1 <= maxFiles st <= 50)%Z -> (1 <= maxFiles (fold_left gh_step evs st) <= 50)%Z.
Proof.
  revert st. induction evs as [| e evs IH]; intros st H; simpl; [exact H |].
  apply IH. destruct e; simpl; [exact H | apply handleMaxFilesChange_range; exact H].
Qed.

(** C4: along any sequence of change events from the initial value 10,
    [maxFiles] stays in [1, 50], so every [max_files] sent to
    [/docs/from-github] is in [1, 50]; an event whose parsed value is
    [NaN] or out of range leaves the state unchanged. *)
Theorem maxFiles_bounded (evs : list gh_event) :
  (1 <= maxFiles (gh_run evs) <= 50)%Z
  /\ (forall srv ast,
        Forall (fun r => exists u n, r = github_request u n /\ (1 <= n <= 50)%Z)
          (snd (fst (gh_handleSubmit srv (gh_run evs) ast))))
  /\ (forall v st,
        match parseInt v with Some n => (n < 1 \/ 50 < n)%Z | None => True end ->
        handleMaxFilesChange v st = st).
Proof.
  assert (Hr : (1 <= maxFiles (gh_run evs) <= 50)%Z).
  { unfold gh_run. apply gh_run_range. simpl. lia. }
  split; [exact Hr | split].
  - intros srv ast.
    destruct (gh_handleSubmit_requests srv (gh_run evs) ast) as [E | E]; rewrite E.
    + constructor.
    + constructor; [| constructor]. eexists. eexists. split; [reflexivity | exact Hr].
  - intros v st H. unfold handleMaxFilesChange.
    destruct (parseInt v) as [n |]; [| reflexivity].
    destruct ((1 <=? n) && (n <=? 50))%Z eqn:E; [| reflexivity].
    apply andb_true_iff in E. destruct E as [E1 E2].
    apply Z.leb_le in E1. apply Z.leb_le in E2. lia.
Qed.

(** C7: a GitHub submit that passes validation sends exactly one request,
    POST [/docs/from-github] with body [{github_url: trimmed URL,
    max_files: n}], after calling [onSubmit] with these values; on an OK
    response whose JSON is an object, its [markdown] field becomes the
    stored (and displayed) documentation. *)
Theorem gh_submit_request (srv : server) (st : gh_state) (ast : app_state)
  (Hne : is_nonempty (trim (githubUrl st)) = true)
  (Hm : gh_match (githubUrl st) <> None) :
  let '(effs, _, reqs, ast') := gh_handleSubmit srv st ast in
  reqs = [github_request (trim (githubUrl st)) (maxFiles st)]
  /\ In (CallOnSubmit (trim (githubUrl st)) (maxFiles st)) effs
  /\ (forall v md,
        resp_ok (srv (github_request (trim (githubUrl st)) (maxFiles st))) = true ->
        body_json (srv (github_request (trim (githubUrl st)) (maxFiles st))) = Some v ->
        get v "markdown" = Some md ->
        documentation ast' = md).
Proof.
  unfold gh_handleSubmit. rewrite Hne. simpl.
  destruct (gh_match (githubUrl st)) as [p |]; [| congruence].
  unfold handleGitHubSubmit, generateGitHubDocumentation. fold (github_request (trim (githubUrl st)) (maxFiles st)).
  set (R := srv (github_request (trim (githubUrl st)) (maxFiles st))).
  destruct (resp_ok R) eqn:Hok; simpl.
  - unfold response_json. destruct (body_json R) as [w |] eqn:Hb; simpl.
    + destruct (get w "markdown") as [m |] eqn:Hg; simpl.
      * repeat split; [right; right; right; right; right; right; left; reflexivity |].
        intros v md _ Hv Hgv. inversion Hv; subst. congruence.
      * repeat split; [right; right; right; right; right; right; left; reflexivity |].
        intros v md _ Hv Hgv. inversion Hv; subst. congruence.
    + repeat split; [right; right; right; right; right; right; left; reflexivity |].
      intros v md _ Hv. discriminate.
  - repeat split; [right; right; right; right; right; right; left; reflexivity |].
    intros v md Hk. discriminate.
Qed.

Lemma gh_submit_request_witness :
  is_nonempty (trim (githubUrl (mkGh " https://github.com/octocat/Hello-World " 20 false ""))) = true
  /\ gh_match (githubUrl (mkGh " https://github.com/octocat/Hello-World " 20 false "")) <> None
  /\ (let '(effs, _, reqs, ast') :=
        gh_handleSubmit (const_server (ok_markdown "# Hello"))
          (mkGh " https://github.com/octocat/Hello-World " 20 false "") app_init in
      reqs = [github_request (trim (githubUrl (mkGh " https://github.com/octocat/Hello-World " 20 false "")))
                (maxFiles (mkGh " https://github.com/octocat/Hello-World " 20 false ""))]
      /\ In (CallOnSubmit (trim (githubUrl (mkGh " https://github.com/octocat/Hello-World " 20 false "")))
               (maxFiles (mkGh " https://github.com/octocat/Hello-World " 20 false ""))) effs
      /\ (forall v md,
            resp_ok (const_server (ok_markdown "# Hello")
                       (github_request (trim (githubUrl (mkGh " https://github.com/octocat/Hello-World " 20 false "")))
                          (maxFiles (mkGh " https://github.com/octocat/Hello-World " 20 false "")))) = true ->
            body_json (const_server (ok_markdown "# Hello")
                       (github_request (trim (githubUrl (mkGh " https://github.com/octocat/Hello-World " 20 false "")))
                          (maxFiles (mkGh " https://github.com/octocat/Hello-World " 20 false "")))) = Some v ->
            get v "markdown" = Some md ->
            documentation ast' = md)).
Proof.
  split; [reflexivity |]. split; [discriminate |].
  apply gh_submit_request; [reflexivity | discriminate].
Defined.

Lemma server_error_text_nonempty (r : response) :
  is_nonempty (server_error_text r) = true.
Proof. reflexivity. Qed.





(** ** Lemmas on the regex matchers *)

Lemma strip_prefix_app (p s : string) : strip_prefix p (p ++ s) = Some s.
Proof.
  induction p as [| c p IH]; simpl; [reflexivity |].
  rewrite Ascii.eqb_refl. exact IH.
Qed.

Lemma strip_prefix_head_neq (c d : ascii) (p s : string) :
  Ascii.eqb c d = false -> strip_prefix (String c p) (String d s) = None.
Proof. simpl. intros H. rewrite H. reflexivity. Qed.

Definition avoids (x : ascii) (s : string) : bool :=
  str_forallb (fun c => negb (Ascii.eqb c x)) s.

Lemma eqb_sym_false (c d : ascii) : Ascii.eqb c d = false -> Ascii.eqb d c = false.
Proof.
  intros H. destruct (Ascii.eqb d c) eqn:E; [| reflexivity].
  apply Ascii.eqb_eq in E. subst. rewrite Ascii.eqb_refl in H. discriminate.
Qed.

Lemma gh_match_skip (pre s : string) :
  gh_no_match_before pre s = true -> gh_match (pre ++ s) = gh_match s.
Proof.
  induction pre as [| c pre IH]; intros H; [reflexivity |].
  cbn [gh_no_match_before] in H. cbn [String.append gh_match].
  destruct (gh_match_at (String c (pre ++ s))); [discriminate H |].
  exact (IH H).
Qed.

Lemma span_nonslash_app (o s : string) :
  str_forallb (fun c => negb (is_slash c)) o = true ->
  span_nonslash (o ++ s) = (o ++ fst (span_nonslash s), snd (span_nonslash s)).
Proof.
  induction o as [| c o IH]; simpl; intros H.
  - destruct (span_nonslash s); reflexivity.
  - apply andb_true_iff in H. destruct H as [Hc Ho].
    apply negb_true_iff in Hc. rewrite Hc. rewrite (IH Ho). reflexivity.
Qed.

Lemma span_nonslash_slash (s : string) :
  span_nonslash (String "/"%char s) = (EmptyString, String "/"%char s).
Proof. reflexivity. Qed.

Lemma append_empty_r (s : string) : s ++ EmptyString = s.
Proof. induction s as [| c s IH]; simpl; [reflexivity | rewrite IH; reflexivity]. Qed.



Lemma take_line_avoids (x : ascii) (s : string) :
  avoids x s = true -> avoids x (take_line s) = true.
Proof.
  unfold avoids.
  induction s as [| c s IH]; simpl; intros H; [reflexivity |].
  apply andb_true_iff in H. destruct H as [Hc Hs].
  destruct (is_line_term c); simpl; [reflexivity |].
  rewrite Hc. apply IH. exact Hs.
Qed.


Lemma last_quote_app (a s : string) :
  last_quote s = None -> last_quote (a ++ String dquote s) = Some (String.length a).
Proof.
  intros H. induction a as [| c a IH]; simpl.
  - rewrite H. reflexivity.
  - rewrite IH. reflexivity.
Qed.



Lemma gh_match_hit (s : string) (m : string * string) :
  gh_match_at s = Some m -> gh_match s = Some m.
Proof. intros H. destruct s; cbn [gh_match]; rewrite H; reflexivity. Qed.






Definition download_request (md filenamePrefix sourceType : string) : request :=
  mkRequest "POST" "/docs/download"
    (JObj [("markdown_content", JStr md); ("filename_prefix", JStr filenamePrefix);
           ("source_type", JStr sourceType)]).


Definition cd_response : response :=
  mkResponse 200 "OK" None "# Docs"
    (Some ("attachment; " ++ filename_eq_quote ++ "report.md" ++ String dquote "")).






Definition no_slash (s : string) : bool := str_forallb (fun c => negb (is_slash c)) s.

Lemma gh_match_github (pre o r suf : string) :
  gh_no_match_before pre ("github.com/" ++ o ++ "/" ++ r ++ suf) = true -> o <> "" -> r <> "" ->
  no_slash o = true -> no_slash r = true ->
  gh_match (pre ++ "github.com/" ++ o ++ "/" ++ r ++ suf)
  = Some (o, r ++ fst (span_nonslash suf)).
Proof.
  intros Hpre Ho Hr Hos Hrs.
  rewrite (gh_match_skip pre _ Hpre). apply gh_match_hit. unfold gh_match_at.
  rewrite strip_prefix_app.
  rewrite (span_nonslash_app o _ Hos).
  change ("/" ++ r ++ suf) with (String "/"%char (r ++ suf)).
  rewrite span_nonslash_slash. cbn [fst snd]. rewrite append_empty_r.
  destruct o as [| c o']; [congruence |].
  cbv beta iota.
  replace (is_slash "/"%char) with true by reflexivity.
  rewrite (span_nonslash_app r suf Hrs). cbv beta iota.
  destruct r as [| c' r']; [congruence |]. reflexivity.
Qed.

(** C2 (as the code does it): for a URL [pre ++ "github.com/<owner>/<repo>" ++ suf]
    where no earlier match of the pattern starts inside [pre], the
    extraction yields [<owner>] and [<repo>] followed by the part of [suf]
    before its first slash, and the download prefix is
    [github_docs_<owner>_<repo><that part>]: a trailing path ([suf] empty or
    starting with [/]) is ignored, a query string or fragment directly after
    the repository name is kept. *)
Theorem gh_match_owner_repo (pre o r suf : string)
  (Hpre : gh_no_match_before pre ("github.com/" ++ o ++ "/" ++ r ++ suf) = true)
  (Ho : o <> "") (Hr : r <> "")
  (Hos : no_slash o = true) (Hrs : no_slash r = true) :
  gh_match (pre ++ "github.com/" ++ o ++ "/" ++ r ++ suf)
    = Some (o, r ++ fst (span_nonslash suf))
  /\ github_prefix (pre ++ "github.com/" ++ o ++ "/" ++ r ++ suf)
     = "github_docs_" ++ o ++ "_" ++ r ++ fst (span_nonslash suf)
  /\ ((suf = "" \/ exists t, suf = String "/"%char t) ->
      gh_match (pre ++ "github.com/" ++ o ++ "/" ++ r ++ suf) = Some (o, r)
      /\ github_prefix (pre ++ "github.com/" ++ o ++ "/" ++ r ++ suf)
         = "github_docs_" ++ o ++ "_" ++ r).
Proof.
  pose proof (gh_match_github pre o r suf Hpre Ho Hr Hos Hrs) as H.
  split; [exact H |].
  split; [unfold github_prefix; rewrite H; reflexivity |].
  intros Hsuf.
  assert (E : fst (span_nonslash suf) = "").
  { destruct Hsuf as [-> | [t ->]]; reflexivity. }
  rewrite E, append_empty_r in H.
  split; [exact H |].
  unfold github_prefix. rewrite H. reflexivity.
Qed.

Lemma gh_match_owner_repo_witness :
  gh_no_match_before "git://" ("github.com/" ++ "octocat" ++ "/" ++ "Hello-World" ++ "?tab=readme-ov-file") = true
  /\ gh_match ("git://" ++ "github.com/" ++ "octocat" ++ "/" ++ "Hello-World" ++ "?tab=readme-ov-file")
    = Some ("octocat", "Hello-World" ++ fst (span_nonslash "?tab=readme-ov-file"))
  /\ github_prefix ("git://" ++ "github.com/" ++ "octocat" ++ "/" ++ "Hello-World" ++ "?tab=readme-ov-file")
     = "github_docs_" ++ "octocat" ++ "_" ++ "Hello-World" ++ fst (span_nonslash "?tab=readme-ov-file")
  /\ (("?tab=readme-ov-file" = "" \/ exists t, "?tab=readme-ov-file" = String "/"%char t) ->
      gh_match ("git://" ++ "github.com/" ++ "octocat" ++ "/" ++ "Hello-World" ++ "?tab=readme-ov-file")
        = Some ("octocat", "Hello-World")
      /\ github_prefix ("git://" ++ "github.com/" ++ "octocat" ++ "/" ++ "Hello-World" ++ "?tab=readme-ov-file")
         = "github_docs_" ++ "octocat" ++ "_" ++ "Hello-World").
Proof.
  split; [vm_compute; reflexivity |].
  apply gh_match_owner_repo; [vm_compute; reflexivity | discriminate | discriminate
                             | reflexivity | reflexivity].
Defined.

(** C2: the code keeps a query string that directly follows the repository
    name in the extracted repository name, and so in the file name. *)
Lemma gh_match_query_counterexample :
  gh_match "https://github.com/octocat/Hello-World?tab=readme-ov-file"
    = Some ("octocat", "Hello-World?tab=readme-ov-file")
  /\ gh_match "https://github.com/octocat/Hello-World?tab=readme-ov-file"
    <> Some ("octocat", "Hello-World")
  /\ github_prefix "https://github.com/octocat/Hello-World?tab=readme-ov-file"
    = "github_docs_octocat_Hello-World?tab=readme-ov-file".
Proof. vm_compute. repeat split; discriminate. Qed.

(** ** Lemmas on the generated timestamp *)

Lemma str_filter_app (f : ascii -> bool) (a b : string) :
  str_filter f (a ++ b) = str_filter f a ++ str_filter f b.
Proof.
  induction a as [| c a IH]; simpl; [reflexivity |].
  destruct (f c); rewrite IH; reflexivity.
Qed.

Lemma str_forallb_app (f : ascii -> bool) (a b : string) :
  str_forallb f (a ++ b) = str_forallb f a && str_forallb f b.
Proof.
  induction a as [| c a IH]; simpl; [reflexivity |].
  rewrite IH. apply andb_assoc.
Qed.

Lemma digit_char_props (n : Z) :
  is_digit (digit_char (n mod 10)) = true
  /\ dash_colon_dot (digit_char (n mod 10)) = false.
Proof.
  assert (H : (0 <= n mod 10 < 10)%Z) by (apply Z.mod_pos_bound; lia).
  assert (n mod 10 = 0 \/ n mod 10 = 1 \/ n mod 10 = 2 \/ n mod 10 = 3 \/ n mod 10 = 4
          \/ n mod 10 = 5 \/ n mod 10 = 6 \/ n mod 10 = 7 \/ n mod 10 = 8
          \/ n mod 10 = 9)%Z as Hc by lia.
  repeat destruct Hc as [Hc | Hc]; rewrite Hc; split; reflexivity.
Qed.

Lemma length_app (a b : string) :
  String.length (a ++ b) = (String.length a + String.length b)%nat.
Proof. induction a as [| c a IH]; simpl; [reflexivity | rewrite IH; reflexivity]. Qed.

Lemma get_app_ge (a b : string) (n : nat) :
  (String.length a <= n)%nat -> String.get n (a ++ b) = String.get (n - String.length a) b.
Proof.
  revert n. induction a as [| c a IH]; intros n Hn; simpl in *.
  - rewrite Nat.sub_0_r. reflexivity.
  - destruct n as [| n]; [lia |]. apply IH. lia.
Qed.

Lemma digits_length (k : nat) (n : Z) : String.length (digits k n) = k.
Proof.
  revert n. induction k as [| k IH]; intros n; cbn [digits]; [reflexivity |].
  rewrite length_app, IH. cbn [String.length]. lia.
Qed.

Lemma digits_kept (k : nat) (n : Z) :
  str_filter (fun c => negb (dash_colon_dot c)) (digits k n) = digits k n.
Proof.
  revert n. induction k as [| k IH]; intros n; cbn [digits]; [reflexivity |].
  rewrite str_filter_app, IH. cbn [str_filter].
  destruct (digit_char_props n) as [_ ->]. reflexivity.
Qed.

Lemma digits_all_digits (k : nat) (n : Z) : str_forallb is_digit (digits k n) = true.
Proof.
  revert n. induction k as [| k IH]; intros n; cbn [digits]; [reflexivity |].
  rewrite str_forallb_app, IH. cbn [str_forallb].
  destruct (digit_char_props n) as [-> _]. reflexivity.
Qed.

Lemma substring_app_ge (a b : string) (n : nat) :
  (String.length a <= n)%nat ->
  substring 0 n (a ++ b) = a ++ substring 0 (n - String.length a) b.
Proof.
  revert n. induction a as [| c a IH]; intros n Hn; simpl in *.
  - rewrite Nat.sub_0_r. reflexivity.
  - destruct n as [| n]; [lia |]. rewrite IH by lia. reflexivity.
Qed.

(** C1 (as the code does it): for a current time in years 0..9999 the
    generated name is [P_<yyyymmdd>T<HHMM><first digit of ss>.md]: the
    14-character stamp holds the letter [T] at index 8, so it is not made of
    14 decimal digits, and the last digit of the seconds is dropped. *)
Theorem default_filename_shape (P : string) (now : date)
  (Hy : (0 <= year now <= 9999)%Z) :
  timestamp now
    = digits 4 (year now) ++ digits 2 (month now) ++ digits 2 (day now)
      ++ "T" ++ digits 2 (hours now) ++ digits 2 (minutes now)
      ++ substring 0 1 (digits 2 (seconds now))
  /\ (forall srv md sourceType,
        resp_ok (srv (download_request md P sourceType)) = true ->
        content_disposition (srv (download_request md P sourceType)) = None ->
        downloadDocumentationUniversal srv now md P sourceType
        = ([download_request md P sourceType], Resolved true,
           Some (mkSaved (P ++ "_" ++ timestamp now ++ ".md")
                   (body_text (srv (download_request md P sourceType))))))
  /\ String.length (timestamp now) = 14%nat
  /\ String.get 8 (timestamp now) = Some "T"%char
  /\ str_forallb is_digit (timestamp now) = false.
Proof.
  assert (Hts : timestamp now
    = digits 4 (year now) ++ digits 2 (month now) ++ digits 2 (day now)
      ++ "T" ++ digits 2 (hours now) ++ digits 2 (minutes now)
      ++ substring 0 1 (digits 2 (seconds now))).
  { unfold timestamp, toISOString.
    replace ((0 <=? year now) && (year now <=? 9999))%Z with true
      by (symmetry; apply andb_true_iff; split; apply Z.leb_le; lia).
    rewrite !str_filter_app, !digits_kept.
    cbv [str_filter negb dash_colon_dot Ascii.eqb Bool.eqb orb andb].
    cbn [String.append].
    rewrite substring_app_ge by (rewrite digits_length; lia). rewrite digits_length.
    f_equal. }
  split; [exact Hts | split].
  { intros srv md sourceType Hok Hcd.
    unfold downloadDocumentationUniversal.
    fold (download_request md P sourceType).
    rewrite Hok. simpl negb. cbv beta iota zeta. rewrite Hcd. reflexivity. }
  rewrite Hts.
  split; [| split].
  - rewrite !length_app, !digits_length. reflexivity.
  - rewrite get_app_ge by (rewrite digits_length; lia). rewrite digits_length.
    rewrite get_app_ge by (rewrite digits_length; lia). rewrite digits_length.
    rewrite get_app_ge by (rewrite digits_length; lia). rewrite digits_length.
    reflexivity.
  - rewrite !str_forallb_app, !digits_all_digits. reflexivity.
Qed.

Lemma default_filename_shape_witness :
  (0 <= year sample_now <= 9999)%Z
  /\ timestamp sample_now = "20240115T10304"
  /\ (timestamp sample_now
        = digits 4 (year sample_now) ++ digits 2 (month sample_now) ++ digits 2 (day sample_now)
          ++ "T" ++ digits 2 (hours sample_now) ++ digits 2 (minutes sample_now)
          ++ substring 0 1 (digits 2 (seconds sample_now))
      /\ (forall srv md sourceType,
            resp_ok (srv (download_request md "documentation" sourceType)) = true ->
            content_disposition (srv (download_request md "documentation" sourceType)) = None ->
            downloadDocumentationUniversal srv sample_now md "documentation" sourceType
            = ([download_request md "documentation" sourceType], Resolved true,
               Some (mkSaved ("documentation" ++ "_" ++ timestamp sample_now ++ ".md")
                       (body_text (srv (download_request md "documentation" sourceType))))))
      /\ String.length (timestamp sample_now) = 14%nat
      /\ String.get 8 (timestamp sample_now) = Some "T"%char
      /\ str_forallb is_digit (timestamp sample_now) = false).
Proof.
  split; [cbn; lia |]. split; [reflexivity |].
  apply (default_filename_shape "documentation" sample_now). cbn; lia.
Defined.

(** ** Further code: file upload, legacy download wrappers, display *)

(** A [File] chosen in the file input: its name and its text. *)
Record file := mkFile { file_name : string; file_text : string }.

(** The [FormData] body of an upload, as its list of [[key, value]] entries;
    the [File] appears as an object with its name and text. *)
Definition upload_request (f : file) : request :=
  mkRequest "POST" "/docs/from-upload"
    (JArr [JArr [JStr "file"; JObj [("name", JStr (file_name f)); ("text", JStr (file_text f))]]]).

(** [uploadFileForDocumentation(file)]: one POST to [/docs/from-upload]. *)
Definition uploadFileForDocumentation (srv : server) (f : file)
  : list request * outcome jsval :=
  let req := upload_request f in
  let response := srv req in
  ([req],
   if negb (resp_ok response) then Rejected (error_message_of response)
   else response_json response).

(** [App.handleFileSubmit(file)] *)
Definition handleFileSubmit (srv : server) (f : file) (st : app_state)
  : list request * app_state * outcome jsval :=
  let st1 := setError "" st in
  let '(reqs, res) := uploadFileForDocumentation srv f in
  let fail msg :=
    (reqs, setError (str_or msg "Failed to process file. Please try again.") st1,
     Rejected msg) in
  match res with
  | Rejected msg => fail msg
  | Resolved response =>
      match get response "markdown" with
      | None => fail (read_prop_error "markdown")
      | Some md =>
          (reqs, setCurrentCode (CodeFile (file_name f)) (setDocumentation md st1),
           Resolved response)
      end
  end.

(** [downloadDocumentation(markdownContent, sourceType)] (legacy wrapper). *)
Definition downloadDocumentation (srv : server) (now : date) (markdownContent sourceType : string)
  : list request * outcome bool * option saved_file :=
  downloadDocumentationUniversal srv now markdownContent "code_documentation" sourceType.

(** [downloadGitHubDocumentation(markdownContent, githubUrl)] (legacy wrapper);
    its inline repository-name extraction is [github_prefix]. *)
Definition downloadGitHubDocumentation (srv : server) (now : date) (markdownContent githubUrl : string)
  : list request * outcome bool * option saved_file :=
  downloadDocumentationUniversal srv now markdownContent (github_prefix githubUrl) "github".

(** FileUpload component state. *)
Record fu_state := mkFu { selected : option file; fu_isProcessing : bool }.

(** [handleFileChange]: [const selectedFile = e.target.files[0];
    if (selectedFile) setFile(selectedFile);] ([None]: the picker was
    cancelled, no file). *)
Definition handleFileChange (picked : option file) (st : fu_state) : fu_state :=
  match picked with
  | Some f => mkFu (Some f) (fu_isProcessing st)
  | None => st
  end.

(** [handleSubmit] of FileUpload with [onSubmit = App.handleFileSubmit]:
    [if (!file) return; setIsProcessing(true); onSubmit(file).finally(() =>
    { setIsProcessing(false); setFile(null); ... })]. *)
Definition fu_handleSubmit (srv : server) (st : fu_state) (ast : app_state)
  : fu_state * list request * app_state :=
  match selected st with
  | None => (st, [], ast)
  | Some f =>
      let '(reqs, ast', _) := handleFileSubmit srv f ast in
      (mkFu None false, reqs, ast')
  end.

(** [disabled={isProcessing || !file}] *)
Definition fu_disabled (st : fu_state) : bool :=
  fu_isProcessing st || match selected st with None => true | Some _ => false end.

(** What DocumentationDisplay renders for [markdown]: the preview with a
    download button, or the empty state. *)
Inductive dd_view : Type :=
| Preview (markdown : jsval)
| EmptyState.

Definition dd_render (markdown : jsval) : dd_view :=
  if truthy markdown then Preview markdown else EmptyState.

(** [{markdown && <button ...>}] *)
Definition dd_has_download_button (markdown : jsval) : bool := truthy markdown.

(** DocumentationDisplay's [handleDownload] with [markdown = documentation]
    and [onDownload = App.handleDownload]: [if (!markdown) return; ...]. *)
Definition dd_handleDownload (srv : server) (now : date) (ast : app_state)
  : list request * app_state * option saved_file :=
  if negb (truthy (documentation ast)) then ([], ast, None)
  else let '(reqs, ast', _, saved) := handleDownload srv now ast in (reqs, ast', saved).

(** The source type and filename prefix [handleDownload] picks (App.jsx,
    lines 89-104), for the lemmas below. *)
Definition download_target (st : app_state) : string * string :=
  match currentGitHubData st with
  | Some (githubUrl, _) => ("github", github_prefix githubUrl)
  | None =>
      match currentCode st with
      | CodeFile name => ("file", "file_docs_" ++ strip_ext name)
      | CodeText c => if is_nonempty c then ("code", "code_documentation")
                      else ("code", "documentation")
      | CodeNull => ("code", "documentation")
      end
  end.

Lemma str_forallb_dot_false (f : ascii -> bool) (b e : string) :
  f "."%char = false -> str_forallb f (b ++ String "."%char e) = false.
Proof.
  intros Hf. rewrite str_forallb_app. simpl. rewrite Hf. apply andb_false_r.
Qed.

(** X1: removing the extension of an uploaded file's name drops exactly the last
    [.ext] (an extension without [/] or [.]); a name with no dot is kept. *)
Theorem strip_ext_last_extension (base ext : string) (Hext : ext_tail ext = true) :
  strip_ext (base ++ "." ++ ext) = base
  /\ (forall name, avoids "."%char name = true -> strip_ext name = name).
Proof.
  split.
  - induction base as [| c base IH]; simpl.
    + rewrite Hext. reflexivity.
    + simpl in IH. rewrite IH.
      replace (ext_tail (base ++ String "."%char ext)) with false.
      * rewrite andb_false_r. reflexivity.
      * symmetry. unfold ext_tail. rewrite str_forallb_dot_false; [apply andb_false_r | reflexivity].
  - intros name. unfold avoids.
    induction name as [| c name IH]; simpl; intros H; [reflexivity |].
    apply andb_true_iff in H. destruct H as [Hc Hn]. apply negb_true_iff in Hc.
    rewrite Hc. simpl. rewrite (IH Hn). reflexivity.
Qed.

Lemma strip_ext_last_extension_witness :
  ext_tail "py" = true
  /\ strip_ext ("my.script" ++ "." ++ "py") = "my.script"
  /\ (forall name, avoids "."%char name = true -> strip_ext name = name).
Proof.
  split; [reflexivity |]. apply strip_ext_last_extension. reflexivity.
Defined.

(** Requests and outcome of the universal download. *)
Lemma downloadDocumentationUniversal_cases (srv : server) (now : date)
  (md filenamePrefix sourceType : string) :
  fst (fst (downloadDocumentationUniversal srv now md filenamePrefix sourceType))
    = [download_request md filenamePrefix sourceType]
  /\ (resp_ok (srv (download_request md filenamePrefix sourceType)) = false ->
      downloadDocumentationUniversal srv now md filenamePrefix sourceType
      = ([download_request md filenamePrefix sourceType],
         Rejected (error_message_of (srv (download_request md filenamePrefix sourceType))), None))
  /\ (resp_ok (srv (download_request md filenamePrefix sourceType)) = true ->
      exists name,
        downloadDocumentationUniversal srv now md filenamePrefix sourceType
        = ([download_request md filenamePrefix sourceType], Resolved true,
           Some (mkSaved name (body_text (srv (download_request md filenamePrefix sourceType)))))).
Proof.
  unfold downloadDocumentationUniversal. fold (download_request md filenamePrefix sourceType).
  set (R := srv (download_request md filenamePrefix sourceType)).
  destruct (resp_ok R) eqn:Hok; simpl.
  - split; [reflexivity | split; [discriminate |]]. intros _. eexists. reflexivity.
  - split; [reflexivity | split; [reflexivity | discriminate]].
Qed.

(** handleDownload, for a non-blank documentation string: one download
    request for the target above; the state changes only in [error]. *)
Lemma handleDownload_nonblank (srv : server) (now : date) (st : app_state) (d : string)
  (Hdoc : documentation st = JStr d) (Hne : is_nonempty (trim d) = true) :
  handleDownload srv now st =
    let '(reqs, res, saved) :=
      downloadDocumentationUniversal srv now d (snd (download_target st)) (fst (download_target st)) in
    match res with
    | Resolved _ => (reqs, setError "" st, Resolved true, saved)
    | Rejected msg =>
        (reqs, setError (str_or msg "Failed to download documentation. Please try again.") st,
         Rejected msg, saved)
    end.
Proof.
  unfold handleDownload. rewrite Hdoc.
  destruct d as [| c d']; [discriminate |].
  cbv beta iota zeta. change (truthy (JStr (String c d'))) with true. simpl negb.
  cbv beta iota. rewrite Hne. simpl negb. cbv beta iota.
  unfold download_target.
  destruct (currentGitHubData st) as [[u n] |];
    [| destruct (currentCode st) as [| code0 | name]; [| destruct (is_nonempty code0) |]];
    cbv beta iota zeta; cbn [fst snd];
    match goal with |- context [downloadDocumentationUniversal ?a ?b ?c ?d ?e] =>
      destruct (downloadDocumentationUniversal a b c d e) as [[reqs res] saved] end;
    destruct res; reflexivity.
Qed.

Lemma handleDownload_reqs (srv : server) (now : date) (st : app_state) (d : string)
  (Hdoc : documentation st = JStr d) (Hne : is_nonempty (trim d) = true) :
  fst (fst (fst (handleDownload srv now st)))
  = [download_request d (snd (download_target st)) (fst (download_target st))].
Proof.
  rewrite (handleDownload_nonblank srv now st d Hdoc Hne).
  pose proof (proj1 (downloadDocumentationUniversal_cases srv now d
                       (snd (download_target st)) (fst (download_target st)))) as H.
  destruct (downloadDocumentationUniversal srv now d (snd (download_target st))
              (fst (download_target st))) as [[reqs res] saved].
  simpl in H. destruct res; exact H.
Qed.

(** X2: the download handler, for a non-blank documentation string, sends one
    request to [/docs/download] with the documentation unchanged; the name
    prefix and source type follow the stored data: GitHub data first
    ([github_docs_<owner>_<repo>], "github"), then an uploaded file
    ([file_docs_<name without extension>], "file"), then non-empty pasted
    code ([code_documentation]), else (no code, or the empty string, which
    is falsy) [documentation]. *)
Theorem handleDownload_target (srv : server) (now : date) (st : app_state) (d : string)
  (Hdoc : documentation st = JStr d) (Hne : is_nonempty (trim d) = true) :
  (forall u n, currentGitHubData st = Some (u, n) ->
     fst (fst (fst (handleDownload srv now st))) = [download_request d (github_prefix u) "github"])
  /\ (currentGitHubData st = None -> forall name, currentCode st = CodeFile name ->
     fst (fst (fst (handleDownload srv now st)))
     = [download_request d ("file_docs_" ++ strip_ext name) "file"])
  /\ (currentGitHubData st = None -> forall c, currentCode st = CodeText c -> c <> "" ->
     fst (fst (fst (handleDownload srv now st))) = [download_request d "code_documentation" "code"])
  /\ (currentGitHubData st = None -> (currentCode st = CodeNull \/ currentCode st = CodeText "") ->
     fst (fst (fst (handleDownload srv now st))) = [download_request d "documentation" "code"]).
Proof.
  rewrite (handleDownload_reqs srv now st d Hdoc Hne). unfold download_target.
  repeat split.
  - intros u n H. rewrite H. reflexivity.
  - intros H name Hc. rewrite H, Hc. reflexivity.
  - intros H c Hc Hne'. rewrite H, Hc. destruct c; [congruence | reflexivity].
  - intros H [Hc | Hc]; rewrite H, Hc; reflexivity.
Qed.

Definition doc_app (d : string) (c : current_code) (g : option (string * Z)) : app_state :=
  mkApp (JStr d) "file" "" c g.

Lemma handleDownload_target_witness :
  documentation (doc_app "# Doc" (CodeFile "main.py") None) = JStr "# Doc"
  /\ is_nonempty (trim "# Doc") = true
  /\ fst (fst (fst (handleDownload (const_server cd_response) sample_now
                     (doc_app "# Doc" (CodeFile "main.py") None))))
     = [download_request "# Doc" ("file_docs_" ++ "main") "file"].
Proof.
  split; [reflexivity |]. split; [reflexivity |].
  destruct (handleDownload_target (const_server cd_response) sample_now
              (doc_app "# Doc" (CodeFile "main.py") None) "# Doc" eq_refl eq_refl)
    as [_ [Hf _]].
  exact (Hf eq_refl "main.py" eq_refl).
Defined.

Lemma handleDownload_state (srv : server) (now : date) (st : app_state) :
  let '(_, st', res, _) := handleDownload srv now st in
  st' = match res with
        | Resolved _ => setError "" st
        | Rejected msg => setError (str_or msg "Failed to download documentation. Please try again.") st
        end.
Proof.
  unfold handleDownload.
  destruct (truthy (documentation st)); cbv beta iota zeta; simpl negb; cbv beta iota;
    [| reflexivity].
  destruct (documentation st); try reflexivity.
  destruct (is_nonempty (trim s)); simpl negb; cbv beta iota; [| reflexivity].
  destruct (match currentGitHubData st with
            | Some (githubUrl, _) => ("github", github_prefix githubUrl)
            | None => match currentCode st with
                      | CodeFile name => ("file", "file_docs_" ++ strip_ext name)
                      | CodeText c => if is_nonempty c then ("code", "code_documentation")
                                      else ("code", "documentation")
                      | CodeNull => ("code", "documentation")
                      end
            end) as [sourceType filenamePrefix].
  destruct (downloadDocumentationUniversal srv now s filenamePrefix sourceType)
    as [[reqs res] saved].
  destruct res; reflexivity.
Qed.

(** X3: whatever happens, the download handler leaves the documentation, the
    active tab, the stored code/file and the GitHub data unchanged; the
    banner is cleared on success and shows the error message (or the
    generic download failure text when it is empty) on failure. *)
Theorem handleDownload_frame (srv : server) (now : date) (st : app_state) :
  let '(_, st', res, _) := handleDownload srv now st in
  documentation st' = documentation st
  /\ activeTab st' = activeTab st
  /\ currentCode st' = currentCode st
  /\ currentGitHubData st' = currentGitHubData st
  /\ error st' = match res with
                 | Resolved _ => ""
                 | Rejected msg => str_or msg "Failed to download documentation. Please try again."
                 end.
Proof.
  pose proof (handleDownload_state srv now st) as H.
  destruct (handleDownload srv now st) as [[[reqs st'] res] saved].
  subst st'. destruct res; repeat split.
Qed.


(** X5: the three submit handlers. On failure each one only sets the banner
    (to the error message, or its own fallback text when the message is
    empty), keeping the documentation and the stored data. On success the
    banner is cleared; code and file submits record their input and keep any
    stored GitHub data, and a GitHub submit records its URL and limit and
    clears the stored code. *)
Theorem submit_handlers_frame (srv : server) (code : string) (f : file)
  (u : string) (n : Z) (st : app_state) :
  (let '(_, st', res) := handleCodeSubmit srv code st in
   match res with
   | Resolved _ => error st' = "" /\ currentCode st' = CodeText code
                   /\ currentGitHubData st' = currentGitHubData st
   | Rejected msg => st' = setError (str_or msg "Failed to generate documentation. Please try again.") st
   end)
  /\ (let '(_, st', res) := handleFileSubmit srv f st in
      match res with
      | Resolved _ => error st' = "" /\ currentCode st' = CodeFile (file_name f)
                      /\ currentGitHubData st' = currentGitHubData st
      | Rejected msg => st' = setError (str_or msg "Failed to process file. Please try again.") st
      end)
  /\ (let '(_, st', res) := handleGitHubSubmit srv u n st in
      match res with
      | Resolved _ => error st' = "" /\ currentCode st' = CodeNull
                      /\ currentGitHubData st' = Some (u, n)
      | Rejected msg =>
          st' = setError (str_or msg "Failed to generate GitHub documentation. Please try again.") st
      end).
Proof.
  unfold handleCodeSubmit, handleFileSubmit, handleGitHubSubmit.
  split; [| split].
  - destruct (generateDocumentation srv code) as [reqs [resp | msg]];
      [destruct (get resp "markdown") |]; repeat split.
  - destruct (uploadFileForDocumentation srv f) as [reqs [resp | msg]];
      [destruct (get resp "markdown") |]; repeat split.
  - destruct (generateGitHubDocumentation srv u n) as [reqs [resp | msg]];
      [destruct (get resp "markdown") |]; repeat split.
Qed.

(** X6: uploading a file whose answer carries a non-blank Markdown string,
    then downloading, saves under [file_docs_<file name without extension>]
    (when no GitHub data is stored, as on the file tab). *)
Theorem file_upload_then_download (srv : server) (now : date) (f : file) (st : app_state)
  (v : jsval) (m : string)
  (Hgh : currentGitHubData st = None)
  (Hok : resp_ok (srv (upload_request f)) = true)
  (Hb : body_json (srv (upload_request f)) = Some v)
  (Hm : get v "markdown" = Some (JStr m))
  (Hne : is_nonempty (trim m) = true) :
  let '(reqs, st1, _) := handleFileSubmit srv f st in
  reqs = [upload_request f]
  /\ documentation st1 = JStr m
  /\ fst (fst (fst (handleDownload srv now st1)))
     = [download_request m ("file_docs_" ++ strip_ext (file_name f)) "file"].
Proof.
  unfold handleFileSubmit, uploadFileForDocumentation. cbv zeta.
  rewrite Hok. simpl negb. unfold response_json. rewrite Hb. cbv beta iota. rewrite Hm.
  cbv beta iota zeta.
  split; [reflexivity | split; [reflexivity |]].
  match goal with |- context [handleDownload srv now ?s] =>
    rewrite (handleDownload_reqs srv now s m eq_refl Hne) end.
  unfold download_target. cbn [currentGitHubData currentCode setCurrentCode setDocumentation setError].
  rewrite Hgh. reflexivity.
Qed.

Definition md_response (m : string) : response :=
  mkResponse 200 "OK" (Some (JObj [("markdown", JStr m)])) "" None.

Lemma file_upload_then_download_witness :
  currentGitHubData app_init = None
  /\ resp_ok (const_server (md_response "# API") (upload_request (mkFile "utils.test.js" "x"))) = true
  /\ (let '(reqs, st1, _) :=
        handleFileSubmit (const_server (md_response "# API")) (mkFile "utils.test.js" "x") app_init in
      reqs = [upload_request (mkFile "utils.test.js" "x")]
      /\ documentation st1 = JStr "# API"
      /\ fst (fst (fst (handleDownload (const_server (md_response "# API")) sample_now st1)))
         = [download_request "# API" ("file_docs_" ++ strip_ext (file_name (mkFile "utils.test.js" "x"))) "file"]).
Proof.
  split; [reflexivity |]. split; [reflexivity |].
  exact (file_upload_then_download (const_server (md_response "# API")) sample_now
           (mkFile "utils.test.js" "x") app_init (JObj [("markdown", JStr "# API")]) "# API"
           eq_refl eq_refl eq_refl eq_refl eq_refl).
Defined.

(** X7: a validated GitHub submit whose answer carries a non-blank Markdown
    string, followed by a download, saves under
    [github_docs_<owner>_<repo>] of the trimmed URL, whatever was stored
    before. *)
Theorem github_submit_then_download (srv : server) (now : date) (st : gh_state)
  (ast : app_state) (v : jsval) (m : string)
  (Hne : is_nonempty (trim (githubUrl st)) = true)
  (Hmatch : gh_match (githubUrl st) <> None)
  (Hok : resp_ok (srv (github_request (trim (githubUrl st)) (maxFiles st))) = true)
  (Hb : body_json (srv (github_request (trim (githubUrl st)) (maxFiles st))) = Some v)
  (Hm : get v "markdown" = Some (JStr m))
  (Hmd : is_nonempty (trim m) = true) :
  let '(_, _, _, ast') := gh_handleSubmit srv st ast in
  fst (fst (fst (handleDownload srv now ast')))
  = [download_request m (github_prefix (trim (githubUrl st))) "github"].
Proof.
  unfold gh_handleSubmit. rewrite Hne. simpl negb. cbv beta iota.
  destruct (gh_match (githubUrl st)) as [p |]; [| congruence].
  unfold handleGitHubSubmit, generateGitHubDocumentation.
  fold (github_request (trim (githubUrl st)) (maxFiles st)). cbv zeta.
  rewrite Hok. simpl negb. unfold response_json. rewrite Hb. cbv beta iota. rewrite Hm.
  cbv beta iota zeta.
  match goal with |- context [handleDownload srv now ?s] =>
    rewrite (handleDownload_reqs srv now s m eq_refl Hmd) end.
  reflexivity.
Qed.

Lemma github_submit_then_download_witness :
  is_nonempty (trim (githubUrl (mkGh "https://github.com/octocat/Hello-World" 10 false ""))) = true
  /\ (let '(_, _, _, ast') :=
        gh_handleSubmit (const_server (md_response "# Hello"))
          (mkGh "https://github.com/octocat/Hello-World" 10 false "") app_init in
      fst (fst (fst (handleDownload (const_server (md_response "# Hello")) sample_now ast')))
      = [download_request "# Hello"
           (github_prefix (trim (githubUrl (mkGh "https://github.com/octocat/Hello-World" 10 false ""))))
           "github"]).
Proof.
  split; [reflexivity |].
  exact (github_submit_then_download (const_server (md_response "# Hello")) sample_now
           (mkGh "https://github.com/octocat/Hello-World" 10 false "") app_init
           (JObj [("markdown", JStr "# Hello")]) "# Hello"
           eq_refl ltac:(discriminate) eq_refl eq_refl eq_refl eq_refl).
Defined.

(** X8: after switching to the code tab, a CodeInput submit (which only
    goes through for code that is not blank) whose answer carries a
    non-blank Markdown string sends one [/docs/gen] request, and a following
    download saves under [code_documentation] with source type "code". *)
Theorem code_submit_then_download (srv : server) (now : date) (st : app_state)
  (ci : ci_state) (v : jsval) (m : string)
  (Hcode : is_nonempty (trim (code ci)) = true)
  (Hok : resp_ok (srv (gen_request (code ci))) = true)
  (Hb : body_json (srv (gen_request (code ci))) = Some v)
  (Hm : get v "markdown" = Some (JStr m))
  (Hmd : is_nonempty (trim m) = true) :
  let '(_, reqs, st1) := ci_handleSubmit srv ci (handleTabChange "code" st) in
  reqs = [gen_request (code ci)]
  /\ fst (fst (fst (handleDownload srv now st1)))
     = [download_request m "code_documentation" "code"].
Proof.
  assert (Hc : is_nonempty (code ci) = true).
  { destruct (code ci); [vm_compute in Hcode; discriminate Hcode | reflexivity]. }
  unfold ci_handleSubmit. rewrite Hcode. simpl negb. cbv beta iota.
  unfold handleCodeSubmit, generateDocumentation. fold (gen_request (code ci)). cbv zeta.
  rewrite Hok. simpl negb. unfold response_json. rewrite Hb. cbv beta iota. rewrite Hm.
  cbv beta iota zeta.
  split; [reflexivity |].
  match goal with |- context [handleDownload srv now ?s] =>
    rewrite (handleDownload_reqs srv now s m eq_refl Hmd) end.
  unfold download_target. cbn [currentGitHubData currentCode setCurrentCode setDocumentation
                               setError handleTabChange setActiveTab setCurrentGitHubData].
  rewrite Hc. reflexivity.
Qed.

Lemma code_submit_then_download_witness :
  is_nonempty (trim (code (mkCi "def add(a, b): return a + b" false))) = true
  /\ (let '(_, reqs, st1) :=
        ci_handleSubmit (const_server (md_response "# Add")) (mkCi "def add(a, b): return a + b" false)
          (handleTabChange "code" app_init) in
      reqs = [gen_request (code (mkCi "def add(a, b): return a + b" false))]
      /\ fst (fst (fst (handleDownload (const_server (md_response "# Add")) sample_now st1)))
         = [download_request "# Add" "code_documentation" "code"]).
Proof.
  split; [reflexivity |].
  exact (code_submit_then_download (const_server (md_response "# Add")) sample_now app_init
           (mkCi "def add(a, b): return a + b" false) (JObj [("markdown", JStr "# Add")]) "# Add"
           eq_refl eq_refl eq_refl eq_refl eq_refl).
Defined.

(** Whether a promise settled by fulfilment. *)
Definition outcome_ok {A : Type} (o : outcome A) : bool :=
  match o with Resolved _ => true | Rejected _ => false end.




(** ** Decimal entries of the file-limit field *)

Lemma str_app_assoc (a b c : string) : (a ++ b) ++ c = a ++ (b ++ c).
Proof. induction a as [| x a IH]; simpl; [reflexivity | rewrite IH; reflexivity]. Qed.

(** A string that ends a number: empty, or starting with neither a decimal
    digit nor the [x] of a hexadecimal prefix. *)
Definition stops_number (r : string) : bool :=
  match r with
  | String c _ => negb (is_digit c) && negb (Ascii.eqb c "x"%char) && negb (Ascii.eqb c "X"%char)
  | EmptyString => true
  end.

Lemma digit_value_non_digit (c : ascii) : is_digit c = false -> digit_value 10 c = None.
Proof.
  destruct c as [[] [] [] [] [] [] [] []]; vm_compute; intros H; solve [reflexivity | discriminate H].
Qed.

Lemma digit_head_props (c : ascii) :
  is_digit c = true ->
  is_ws c = false /\ Ascii.eqb c "-"%char = false /\ Ascii.eqb c "+"%char = false
  /\ Ascii.eqb c "x"%char = false /\ Ascii.eqb c "X"%char = false.
Proof.
  destruct c as [[] [] [] [] [] [] [] []]; vm_compute; intros H;
    solve [discriminate H | repeat split].
Qed.

Lemma digit_value_digit_char (d : Z) : (0 <= d < 10)%Z -> digit_value 10 (digit_char d) = Some d.
Proof.
  intros H.
  assert (d = 0 \/ d = 1 \/ d = 2 \/ d = 3 \/ d = 4 \/ d = 5 \/ d = 6 \/ d = 7 \/ d = 8
          \/ d = 9)%Z as Hc by lia.
  repeat destruct Hc as [Hc | Hc]; subst d; reflexivity.
Qed.

Lemma parse_digits_digits (k : nat) (n acc : Z) (seen : bool) (rest : string) :
  (0 <= n < 10 ^ Z.of_nat k)%Z ->
  parse_digits 10 acc seen (digits k n ++ rest)
  = parse_digits 10 (acc * 10 ^ Z.of_nat k + n) (seen || (0 <? k)%nat) rest.
Proof.
  revert n acc seen rest. induction k as [| k IH]; intros n acc seen rest Hn.
  - cbn [digits String.append]. simpl in Hn.
    replace n with 0%Z by lia. rewrite orb_false_r. f_equal. lia.
  - cbn [digits]. rewrite str_app_assoc. cbn [String.append].
    rewrite Nat2Z.inj_succ, Z.pow_succ_r in Hn by lia.
    pose proof (Z.div_mod n 10 ltac:(lia)) as Hdm.
    pose proof (Z.mod_pos_bound n 10 ltac:(lia)) as Hm.
    assert (Hq : (0 <= n / 10 < 10 ^ Z.of_nat k)%Z).
    { pose proof (Z.pow_pos_nonneg 10 (Z.of_nat k) ltac:(lia) ltac:(lia)). nia. }
    rewrite (IH (n / 10) acc seen (String (digit_char (n mod 10)) rest) Hq).
    cbn [parse_digits]. rewrite (digit_value_digit_char (n mod 10) Hm).
    replace (seen || (0 <? S k)%nat) with true by (rewrite orb_true_r; reflexivity).
    f_equal. rewrite Nat2Z.inj_succ, Z.pow_succ_r by lia. lia.
Qed.

Lemma parse_digits_stop (acc : Z) (rest : string) :
  stops_number rest = true -> parse_digits 10 acc true rest = Some acc.
Proof.
  destruct rest as [| c r]; cbn [stops_number parse_digits]; [reflexivity |].
  intros H. destruct (is_digit c) eqn:Ed; [discriminate H |].
  rewrite (digit_value_non_digit c Ed). reflexivity.
Qed.

Lemma strip_hex_none (c : ascii) (r : string) :
  match r with String c' _ => Ascii.eqb c' "x"%char = false /\ Ascii.eqb c' "X"%char = false
             | EmptyString => True end ->
  strip_prefix "0x" (String c r) = None /\ strip_prefix "0X" (String c r) = None.
Proof.
  intros H. cbn [strip_prefix].
  destruct (Ascii.eqb "0"%char c); [| split; reflexivity].
  destruct r as [| c' r]; [split; reflexivity |].
  destruct H as [Hx HX]. cbn [strip_prefix].
  rewrite (eqb_sym_false _ _ Hx), (eqb_sym_false _ _ HX). split; reflexivity.
Qed.

Lemma digits_head (k : nat) (n : Z) (rest : string) :
  (1 <= k)%nat -> stops_number rest = true ->
  exists c r, digits k n ++ rest = String c r /\ is_digit c = true
              /\ strip_prefix "0x" (String c r) = None /\ strip_prefix "0X" (String c r) = None.
Proof.
  intros Hk Hrest.
  pose proof (digits_all_digits k n) as Hall. pose proof (digits_length k n) as Hlen.
  destruct (digits k n) as [| c t]; [simpl in Hlen; lia |].
  cbn [str_forallb] in Hall. apply andb_prop in Hall. destruct Hall as [Hc Ht].
  exists c, (t ++ rest). split; [reflexivity | split; [exact Hc |]].
  apply strip_hex_none.
  destruct t as [| c' t].
  - destruct rest as [| c'' r]; [exact I |].
    cbn [stops_number] in Hrest. apply andb_prop in Hrest. destruct Hrest as [H1 H2].
    apply andb_prop in H1. destruct H1 as [_ H1].
    split; [destruct (Ascii.eqb c'' "x"%char); [discriminate H1 | reflexivity]
           | destruct (Ascii.eqb c'' "X"%char); [discriminate H2 | reflexivity]].
  - cbn [str_forallb] in Ht. apply andb_prop in Ht. destruct Ht as [Hc' _].
    cbn [String.append].
    destruct (digit_head_props c' Hc') as (_ & _ & _ & Hx & HX). split; assumption.
Qed.

Lemma parseInt_digits (k : nat) (n : Z) (rest : string) :
  (1 <= k)%nat -> (0 <= n < 10 ^ Z.of_nat k)%Z -> stops_number rest = true ->
  parseInt (digits k n ++ rest) = Some n /\ parseInt ("-" ++ (digits k n ++ rest)) = Some (- n)%Z.
Proof.
  intros Hk Hn Hrest.
  assert (P : parse_digits 10 0 false (digits k n ++ rest) = Some n).
  { rewrite (parse_digits_digits k n 0 false rest Hn).
    replace (false || (0 <? k)%nat) with true by (destruct k; [lia | reflexivity]).
    rewrite (parse_digits_stop _ rest Hrest). f_equal. }
  destruct (digits_head k n rest Hk Hrest) as (c & r & E & Hd & Hx & HX).
  rewrite E in P |- *.
  destruct (digit_head_props c Hd) as (Hws & Hm & Hp & _ & _).
  unfold parseInt. split.
  - cbn [ltrim]. rewrite Hws. rewrite Hm, Hp. cbv beta iota.
    rewrite Hx, HX. cbv beta iota. rewrite P. f_equal. lia.
  - cbn [String.append ltrim].
    change (is_ws "-"%char) with false. cbv beta iota.
    change (Ascii.eqb "-"%char "-"%char) with true. cbv beta iota.
    rewrite Hx, HX. cbv beta iota. rewrite P. reflexivity.
Qed.

(** X9: typing a decimal number into the file-limit field (zero padding
    allowed, and followed by nothing or by text that starts with neither a
    digit nor [x], such as a fraction) stores its integer value when it lies
    in 1..50 and changes nothing otherwise; a negative entry never changes
    the state. *)
Theorem maxFiles_decimal_entry (k : nat) (n : Z) (rest : string) (st : gh_state)
  (Hk : (1 <= k)%nat) (Hn : (0 <= n < 10 ^ Z.of_nat k)%Z) (Hrest : stops_number rest = true) :
  parseInt (digits k n ++ rest) = Some n
  /\ handleMaxFilesChange (digits k n ++ rest) st
     = (if ((1 <=? n) && (n <=? 50))%Z then mkGh (githubUrl st) n (isLoading st) (loadingStep st)
        else st)
  /\ handleMaxFilesChange ("-" ++ (digits k n ++ rest)) st = st.
Proof.
  destruct (parseInt_digits k n rest Hk Hn Hrest) as [Hp Hm].
  split; [exact Hp | split].
  - unfold handleMaxFilesChange. rewrite Hp. reflexivity.
  - unfold handleMaxFilesChange. rewrite Hm.
    replace ((1 <=? - n) && (- n <=? 50))%Z with false; [reflexivity |].
    symmetry. apply andb_false_intro1. apply Z.leb_gt. lia.
Qed.

Lemma maxFiles_decimal_entry_witness :
  (1 <= 2)%nat /\ (0 <= 25 < 10 ^ Z.of_nat 2)%Z /\ stops_number ".5" = true
  /\ parseInt (digits 2 25 ++ ".5") = Some 25
  /\ handleMaxFilesChange (digits 2 25 ++ ".5") gh_init
     = (if ((1 <=? 25) && (25 <=? 50))%Z then mkGh (githubUrl gh_init) 25 (isLoading gh_init) (loadingStep gh_init)
        else gh_init)
  /\ handleMaxFilesChange ("-" ++ (digits 2 25 ++ ".5")) gh_init = gh_init.
Proof.
  split; [lia |]. split; [vm_compute; split; congruence |]. split; [reflexivity |].
  apply (maxFiles_decimal_entry 2 25 ".5" gh_init); [lia | vm_compute; split; congruence | reflexivity].
Defined.

(** X10: DocumentationDisplay with a blank documentation string. An empty
    string shows the empty state, and its download handler does nothing (no
    request, no banner). A non-empty whitespace-only string still shows the
    download button, and clicking it sends no request and sets the
    "No documentation to download" banner through App's own check. *)
Theorem dd_blank_documentation (srv : server) (now : date) (ast : app_state) (d : string)
  (Hdoc : documentation ast = JStr d) (Hblank : trim d = "") :
  (d = "" -> dd_render (documentation ast) = EmptyState
             /\ dd_handleDownload srv now ast = ([], ast, None))
  /\ (d <> "" -> dd_has_download_button (documentation ast) = true
                 /\ dd_handleDownload srv now ast = ([], setError no_doc_message ast, None)).
Proof.
  split.
  - intros ->. unfold dd_render, dd_handleDownload. rewrite Hdoc. split; reflexivity.
  - intros Hne. destruct d as [| c d]; [contradiction |].
    unfold dd_has_download_button, dd_handleDownload, handleDownload. rewrite Hdoc.
    rewrite Hblank. split; reflexivity.
Qed.

Lemma dd_blank_documentation_witness :
  documentation (doc_app "   " CodeNull None) = JStr "   " /\ trim "   " = ""
  /\ (("   " = "" -> dd_render (documentation (doc_app "   " CodeNull None)) = EmptyState
        /\ dd_handleDownload (const_server (md_response "# Doc")) sample_now (doc_app "   " CodeNull None)
           = ([], doc_app "   " CodeNull None, None))
      /\ ("   " <> "" -> dd_has_download_button (documentation (doc_app "   " CodeNull None)) = true
          /\ dd_handleDownload (const_server (md_response "# Doc")) sample_now (doc_app "   " CodeNull None)
             = ([], setError no_doc_message (doc_app "   " CodeNull None), None))).
Proof.
  split; [reflexivity |]. split; [reflexivity |].
  exact (dd_blank_documentation (const_server (md_response "# Doc")) sample_now
           (doc_app "   " CodeNull None) "   " eq_refl eq_refl).
Defined.

(** X11: FileUpload submit. Without a selected file the button is disabled
    and a submit does nothing. With a file, exactly one upload request is
    sent for it, and afterwards, whatever the outcome, the selection is
    cleared, processing is over and the button is disabled again. *)
Theorem fu_submit_lifecycle (srv : server) (st : fu_state) (ast : app_state) :
  (selected st = None -> fu_disabled st = true /\ fu_handleSubmit srv st ast = (st, [], ast))
  /\ (forall f, selected st = Some f ->
        let '(st', reqs, _) := fu_handleSubmit srv st ast in
        reqs = [upload_request f] /\ st' = mkFu None false /\ fu_disabled st' = true).
Proof.
  split.
  - intros H. unfold fu_disabled, fu_handleSubmit. rewrite H.
    rewrite orb_true_r. split; reflexivity.
  - intros f H. unfold fu_handleSubmit. rewrite H.
    unfold handleFileSubmit, uploadFileForDocumentation. cbv zeta.
    destruct (negb (resp_ok (srv (upload_request f)))); cbv beta iota;
      [| destruct (response_json (srv (upload_request f))) as [resp | msg];
         [destruct (get resp "markdown") |]];
      repeat split.
Qed.



(** X13: App's download, with stored GitHub data or with non-empty pasted code, sends
    the same requests, settles the same way and saves the same file as the
    legacy wrappers [downloadGitHubDocumentation] and [downloadDocumentation]. *)
Theorem legacy_wrappers_agree (srv : server) (now : date) (st : app_state) (d : string)
  (Hdoc : documentation st = JStr d) (Hne : is_nonempty (trim d) = true) :
  (forall u n, currentGitHubData st = Some (u, n) ->
     fst (fst (fst (handleDownload srv now st))) = fst (fst (downloadGitHubDocumentation srv now d u))
     /\ outcome_ok (snd (fst (handleDownload srv now st)))
        = outcome_ok (snd (fst (downloadGitHubDocumentation srv now d u)))
     /\ snd (handleDownload srv now st) = snd (downloadGitHubDocumentation srv now d u))
  /\ (forall c, currentGitHubData st = None -> currentCode st = CodeText c -> c <> "" ->
     fst (fst (fst (handleDownload srv now st))) = fst (fst (downloadDocumentation srv now d "code"))
     /\ outcome_ok (snd (fst (handleDownload srv now st)))
        = outcome_ok (snd (fst (downloadDocumentation srv now d "code")))
     /\ snd (handleDownload srv now st) = snd (downloadDocumentation srv now d "code")).
Proof.
  rewrite (handleDownload_nonblank srv now st d Hdoc Hne).
  unfold downloadGitHubDocumentation, downloadDocumentation, download_target.
  split.
  - intros u n Hgh. rewrite Hgh. cbn [fst snd].
    destruct (downloadDocumentationUniversal srv now d (github_prefix u) "github")
      as [[reqs [b | msg]] saved]; repeat split.
  - intros c Hgh Hc Hne'. rewrite Hgh, Hc. destruct c as [| x c]; [congruence |]. cbn [fst snd is_nonempty].
    destruct (downloadDocumentationUniversal srv now d "code_documentation" "code")
      as [[reqs [b | msg]] saved]; repeat split.
Qed.

Lemma legacy_wrappers_agree_witness :
  documentation (doc_app "# Doc" (CodeText "x = 1") None) = JStr "# Doc"
  /\ is_nonempty (trim "# Doc") = true
  /\ ((forall u n, currentGitHubData (doc_app "# Doc" (CodeText "x = 1") None) = Some (u, n) ->
        fst (fst (fst (handleDownload (const_server cd_response) sample_now (doc_app "# Doc" (CodeText "x = 1") None))))
        = fst (fst (downloadGitHubDocumentation (const_server cd_response) sample_now "# Doc" u))
        /\ outcome_ok (snd (fst (handleDownload (const_server cd_response) sample_now (doc_app "# Doc" (CodeText "x = 1") None))))
           = outcome_ok (snd (fst (downloadGitHubDocumentation (const_server cd_response) sample_now "# Doc" u)))
        /\ snd (handleDownload (const_server cd_response) sample_now (doc_app "# Doc" (CodeText "x = 1") None))
           = snd (downloadGitHubDocumentation (const_server cd_response) sample_now "# Doc" u))
      /\ (forall c, currentGitHubData (doc_app "# Doc" (CodeText "x = 1") None) = None ->
          currentCode (doc_app "# Doc" (CodeText "x = 1") None) = CodeText c -> c <> "" ->
          fst (fst (fst (handleDownload (const_server cd_response) sample_now (doc_app "# Doc" (CodeText "x = 1") None))))
          = fst (fst (downloadDocumentation (const_server cd_response) sample_now "# Doc" "code"))
          /\ outcome_ok (snd (fst (handleDownload (const_server cd_response) sample_now (doc_app "# Doc" (CodeText "x = 1") None))))
             = outcome_ok (snd (fst (downloadDocumentation (const_server cd_response) sample_now "# Doc" "code")))
          /\ snd (handleDownload (const_server cd_response) sample_now (doc_app "# Doc" (CodeText "x = 1") None))
             = snd (downloadDocumentation (const_server cd_response) sample_now "# Doc" "code"))).
Proof.
  split; [reflexivity |]. split; [reflexivity |].
  exact (legacy_wrappers_agree (const_server cd_response) sample_now
           (doc_app "# Doc" (CodeText "x = 1") None) "# Doc" eq_refl eq_refl).
Defined.

(** ** The earlier services/api.js (XMLHttpRequest download) *)

(** [downloadDocumentation(code, isBase64)] accepts a [File] or code text. *)
Inductive dl_input : Type :=
| DlFile (f : file)
| DlCode (code : string).

(** The [FormData] sent: [file], or [code] and [isBase64] (a boolean
    appended to a form becomes its string). *)
Definition xhr_download_request (input : dl_input) (isBase64 : bool) : request :=
  mkRequest "POST" "/docs/download"
    (JArr match input with
          | DlFile f =>
              [JArr [JStr "file"; JObj [("name", JStr (file_name f)); ("text", JStr (file_text f))]]]
          | DlCode c =>
              [JArr [JStr "code"; JStr c];
               JArr [JStr "isBase64"; JStr (if isBase64 then "true" else "false")]]
          end).

Definition xhr_status_error (r : response) : string :=
  "Server error: " ++ Z_to_string (status r).

(** [const errorData = JSON.parse(reader.result);
     reject(new Error(errorData.detail || `Server error: ${xhr.status}`))];
    a parse error or the TypeError of [null.detail] falls back to the status
    text. *)
Definition xhr_error_message (r : response) : string :=
  match body_json r with
  | Some v =>
      match get v "detail" with
      | Some d => if truthy d then js_string d else xhr_status_error r
      | None => xhr_status_error r
      end
  | None => xhr_status_error r
  end.

(** [xhr.onload]: only [xhr.status === 200] saves the blob, under
    [code_documentation_${timestamp}.md]. *)
Definition xhr_downloadDocumentation (srv : server) (now : date) (input : dl_input)
  (isBase64 : bool) : list request * outcome unit * option saved_file :=
  let req := xhr_download_request input isBase64 in
  let r := srv req in
  if (status r =? 200)%Z
  then ([req], Resolved tt,
        Some (mkSaved ("code_documentation_" ++ timestamp now ++ ".md") (body_text r)))
  else ([req], Rejected (xhr_error_message r), None).

(** X14: the earlier XHR download (of any input: a file, or code text with
    either isBase64 flag) against the current fetch-based one, when both
    receive the same response. On status 200 the earlier one saves the body
    under the default [code_documentation] name, ignoring any
    Content-Disposition; with no such header both save the same file. On any
    other 2xx status the earlier one rejects with no file while the current
    one resolves and saves the body. Outside 2xx both reject and save
    nothing. *)
Theorem xhr_vs_universal_download (srv : server) (now : date) (input : dl_input)
  (isBase64 : bool) (md sourceType : string) (r : response)
  (H1 : srv (xhr_download_request input isBase64) = r)
  (H2 : srv (download_request md "code_documentation" sourceType) = r) :
  (status r = 200 ->
     snd (xhr_downloadDocumentation srv now input isBase64)
     = Some (mkSaved (default_filename "code_documentation" now) (body_text r))
     /\ (content_disposition r = None ->
         snd (xhr_downloadDocumentation srv now input isBase64)
         = snd (downloadDocumentationUniversal srv now md "code_documentation" sourceType)))
  /\ (200 < status r <= 299 ->
        outcome_ok (snd (fst (xhr_downloadDocumentation srv now input isBase64))) = false
        /\ snd (xhr_downloadDocumentation srv now input isBase64) = None
        /\ outcome_ok (snd (fst (downloadDocumentationUniversal srv now md "code_documentation" sourceType))) = true
        /\ exists name, snd (downloadDocumentationUniversal srv now md "code_documentation" sourceType)
                        = Some (mkSaved name (body_text r)))
  /\ (resp_ok r = false ->
        outcome_ok (snd (fst (xhr_downloadDocumentation srv now input isBase64))) = false
        /\ snd (xhr_downloadDocumentation srv now input isBase64) = None
        /\ outcome_ok (snd (fst (downloadDocumentationUniversal srv now md "code_documentation" sourceType))) = false
        /\ snd (downloadDocumentationUniversal srv now md "code_documentation" sourceType) = None).
Proof.
  split; [| split].
  - intros Hs. unfold xhr_downloadDocumentation, downloadDocumentationUniversal.
    fold (download_request md "code_documentation" sourceType). cbv zeta.
    rewrite H1, H2. unfold resp_ok.
    rewrite Hs. cbn [Z.eqb Pos.eqb fst snd]. split; [reflexivity |].
    intros Hcd. rewrite Hcd. reflexivity.
  - intros Hs.
    assert (Hok : resp_ok (srv (download_request md "code_documentation" sourceType)) = true).
    { rewrite H2. unfold resp_ok. apply andb_true_intro; split; apply Z.leb_le; lia. }
    destruct (proj2 (proj2 (downloadDocumentationUniversal_cases srv now md "code_documentation" sourceType)) Hok)
      as [name Hname].
    rewrite H2 in Hname. rewrite Hname.
    unfold xhr_downloadDocumentation. cbv zeta. rewrite H1.
    replace (status r =? 200)%Z with false by (symmetry; apply Z.eqb_neq; lia).
    replace ((200 <=? status r) && (status r <=? 299))%Z with true
      by (symmetry; apply andb_true_intro; split; apply Z.leb_le; lia).
    cbn [negb fst snd outcome_ok]. repeat split. exists name. reflexivity.
  - intros Hs. unfold xhr_downloadDocumentation, downloadDocumentationUniversal.
    fold (download_request md "code_documentation" sourceType). cbv zeta.
    rewrite H1, H2. unfold resp_ok in *. rewrite Hs.
    replace (status r =? 200)%Z with false.
    + cbn [negb fst snd outcome_ok]. repeat split.
    + symmetry. apply Z.eqb_neq. intros E. rewrite E in Hs. discriminate Hs.
Qed.

Definition plain_200 : response := mkResponse 200 "OK" None "# Doc" None.

Definition plain_201 : response := mkResponse 201 "Created" None "# Doc" None.

Lemma xhr_vs_universal_download_witness :
  const_server plain_201 (xhr_download_request (DlFile (mkFile "app.py" "print(1)")) true) = plain_201
  /\ const_server plain_201 (download_request "# Doc" "code_documentation" "file") = plain_201
  /\ 200 < status plain_201 <= 299
  /\ snd (xhr_downloadDocumentation (const_server plain_201) sample_now (DlFile (mkFile "app.py" "print(1)")) true) = None
  /\ exists name, snd (downloadDocumentationUniversal (const_server plain_201) sample_now "# Doc" "code_documentation" "file")
                  = Some (mkSaved name (body_text plain_201)).
Proof.
  assert (Hs : 200 < status plain_201 <= 299) by (vm_compute; split; congruence).
  destruct (proj1 (proj2 (xhr_vs_universal_download (const_server plain_201) sample_now
             (DlFile (mkFile "app.py" "print(1)")) true "# Doc" "file" plain_201 eq_refl eq_refl)) Hs)
    as [_ [Hx [_ Hu]]].
  split; [reflexivity |]. split; [reflexivity |]. split; [exact Hs |]. split; [exact Hx | exact Hu].
Defined.

(** ** C5: errors of the API calls in the banner *)






